(** * Text classification front end: the [/api/classify] route handler and
      the [Home] page that calls it.

    Source: [app/page.tsx] of [text-classification-mlops_version_finale]
    (the page component [Home] with its [classifyText] callback, and the
    route handler [POST]).

    The handler is effectful JavaScript: it reads the request body, may
    throw, draws from [Math.random], sleeps and logs.  It is embedded as a
    state-and-exception monad over an explicit world; JavaScript numbers are
    IEEE 754 binary64 values ([spec_float] with precision 53 and exponent
    bound 1024) and strings are sequences of UTF-16 code units. *)

From Stdlib Require Import ZArith NArith PArith List String Ascii Bool Lia.
From Stdlib Require Import Floats.SpecFloat.
Import ListNotations.

Local Open Scope Z_scope.

(** ** JavaScript values *)

Module JS.

(** *** Numbers: binary64 *)

Definition prec : Z := 53.
Definition emax : Z := 1024.

Definition number : Type := spec_float.

Definition add (x y : number) : number := SFadd prec emax x y.
Definition mul (x y : number) : number := SFmul prec emax x y.
(** [x > y] *)
Definition gt (x y : number) : bool := SFltb y x.
Definition lt (x y : number) : bool := SFltb x y.
Definition le (x y : number) : bool := SFleb x y.

(** The literals [0], [0.5] and [1], in canonical form. *)
Definition zero : number := S754_zero false.
Definition half : number := S754_finite false 4503599627370496 (-53).
Definition one : number := S754_finite false 4503599627370496 (-52).
(** The largest binary64 value below [1], [0.9999999999999999] = 1 - 2^-53. *)
Definition pred_one : number := S754_finite false 9007199254740991 (-53).

(** *** Strings: UTF-16 code units *)

Definition jsstring : Type := list N.

(** A literal made of ASCII characters only. *)
Definition str (s : string) : jsstring :=
  map N_of_ascii (list_ascii_of_string s).

Fixpoint jsstring_eqb (a b : jsstring) : bool :=
  match a, b with
  | [], [] => true
  | x :: a', y :: b' => N.eqb x y && jsstring_eqb a' b'
  | _, _ => false
  end.

(** [WhiteSpace] and [LineTerminator] code points of ECMAScript, the
    characters [String.prototype.trim] strips.  All are in the basic
    multilingual plane, so each is one code unit. *)
Definition is_white_space (c : N) : bool :=
  match c with
  | 9 | 10 | 11 | 12 | 13 | 32 | 160 | 5760
  | 8192 | 8193 | 8194 | 8195 | 8196 | 8197 | 8198 | 8199 | 8200 | 8201 | 8202
  | 8232 | 8233 | 8239 | 8287 | 12288 | 65279 => true
  | _ => false
  end%N.

Fixpoint trimStart (s : jsstring) : jsstring :=
  match s with
  | c :: s' => if is_white_space c then trimStart s' else s
  | [] => []
  end.

Definition trimEnd (s : jsstring) : jsstring := rev (trimStart (rev s)).

(** [s.trim()] *)
Definition trim (s : jsstring) : jsstring := trimEnd (trimStart s).

(** *** Values *)

(** The values [JSON.parse] can build, and [undefined], which a missing
    property reads as.  An object is the list of its own properties. *)
#[local] Set Warnings "-register-all".
Inductive value : Type :=
| VUndefined
| VNull
| VBool (b : bool)
| VNumber (n : number)
| VString (s : jsstring)
| VArray (xs : list value)
| VObject (props : list (jsstring * value)).

Inductive jstype : Type :=
| TUndefined | TObject | TBoolean | TNumber | TString.

Definition jstype_eqb (a b : jstype) : bool :=
  match a, b with
  | TUndefined, TUndefined | TObject, TObject | TBoolean, TBoolean
  | TNumber, TNumber | TString, TString => true
  | _, _ => false
  end.

(** [typeof v] *)
Definition typeof (v : value) : jstype :=
  match v with
  | VUndefined => TUndefined
  | VNull => TObject
  | VBool _ => TBoolean
  | VNumber _ => TNumber
  | VString _ => TString
  | VArray _ => TObject
  | VObject _ => TObject
  end.

(** [ToBoolean]: [undefined], [null], [false], [+0], [-0], [NaN] and the
    empty string are falsy, everything else is truthy. *)
Definition truthy (v : value) : bool :=
  match v with
  | VUndefined | VNull => false
  | VBool b => b
  | VNumber (S754_zero _) | VNumber S754_nan => false
  | VNumber _ => true
  | VString [] => false
  | VString (_ :: _) => true
  | VArray _ | VObject _ => true
  end.

Inductive exn : Type :=
| SyntaxError
| TypeError
| Error (message : jsstring).

Fixpoint lookup (k : jsstring) (props : list (jsstring * value)) : value :=
  match props with
  | [] => VUndefined
  | (k', v) :: rest => if jsstring_eqb k k' then v else lookup k rest
  end.

(** Reading property [k] for a destructuring pattern [const { k } = v], for
    a key [k] that no prototype defines and that is neither an index nor
    [length] (such as [text]): [null] and [undefined] cannot be
    destructured; primitives, arrays and objects without the property give
    [undefined]. *)
Definition get (v : value) (k : jsstring) : exn + value :=
  match v with
  | VUndefined | VNull => inl TypeError
  | VObject props => inr (lookup k props)
  | VBool _ | VNumber _ | VString _ | VArray _ => inr VUndefined
  end.

End JS.

Import JS.

(** ** Effects: state and exceptions *)

(** A computation over a world [W] that returns an [A] or throws. *)
Definition M (W A : Type) : Type := W -> (exn + A) * W.

Definition ret {W A} (a : A) : M W A := fun w => (inr a, w).

Definition bind {W A B} (c : M W A) (k : A -> M W B) : M W B :=
  fun w =>
    match c w with
    | (inr a, w') => k a w'
    | (inl e, w') => (inl e, w')
    end.

Definition throw {W A} (e : exn) : M W A := fun w => (inl e, w).

(** Lifting the outcome of a platform call that touches no state. *)
Definition lift {W A} (r : exn + A) : M W A := fun w => (r, w).

(** [try { c } catch (e) { h e }] *)
Definition try_catch {W A} (c : M W A) (h : exn -> M W A) : M W A :=
  fun w =>
    match c w with
    | (inr a, w') => (inr a, w')
    | (inl e, w') => h e w'
    end.

(** [try { c } finally { f }], for a [finally] block that does not itself
    return a value. *)
Definition try_finally {W A} (c : M W A) (f : M W unit) : M W A :=
  fun w =>
    match c w with
    | (r, w') =>
        match f w' with
        | (inr _, w'') => (r, w'')
        | (inl e, w'') => (inl e, w'')
        end
    end.

Declare Scope js_scope.
Delimit Scope js_scope with js.
Notation "x <- c ;; k" := (bind c (fun x => k))
  (at level 100, c at next level, right associativity) : js_scope.
Notation "c ;;; k" := (bind c (fun _ => k))
  (at level 100, right associativity) : js_scope.
Local Open Scope js_scope.

(** ** The route handler *)

Module Route.

(** What the handler can observe and change: the sequence of results
    [Math.random] will give and how many were taken, the time spent in
    [setTimeout], and what was written with [console.error]. *)
Record world : Type := {
  random : nat -> number;
  drawn : nat;
  slept : Z;
  console : list (jsstring * exn)
}.

Definition Math_random : M world number :=
  fun w => (inr (random w (drawn w)),
            {| random := random w; drawn := S (drawn w);
               slept := slept w; console := console w |}).

(** [await new Promise((resolve) => setTimeout(resolve, ms))] *)
Definition sleep (ms : Z) : M world unit :=
  fun w => (inr tt,
            {| random := random w; drawn := drawn w;
               slept := slept w + ms; console := console w |}).

Definition console_error (label : jsstring) (e : exn) : M world unit :=
  fun w => (inr tt,
            {| random := random w; drawn := drawn w;
               slept := slept w; console := console w ++ [(label, e)] |}).

(** A request, as far as the handler looks at it: what [request.json()]
    resolves to, or the exception it rejects with (a [SyntaxError] when the
    body is not JSON). *)
Record NextRequest : Type := { json : exn + value }.

Record NextResponse : Type := { status : Z; body : value }.

(** [NextResponse.json(body, { status })]; the status defaults to 200. *)
Definition NextResponse_json (b : value) (init : option Z) : NextResponse :=
  {| status := match init with Some s => s | None => 200 end; body := b |}.

Definition POST (request : NextRequest) : M world NextResponse :=
  try_catch
    (parsed <- lift (json request) ;;
     text <- lift (get parsed (str "text")) ;;
     if negb (truthy text) || negb (jstype_eqb (typeof text) TString) then
       ret (NextResponse_json
              (VObject [(str "error", VString (str "Le texte est requis"))])
              (Some 400))
     else
       r1 <- Math_random ;;
       let isPositive := gt r1 half in
       r2 <- Math_random ;;
       let confidence := add half (mul r2 half) in
       sleep 1000 ;;;
       ret (NextResponse_json
              (VObject [(str "sentiment",
                         VString (if isPositive then str "positive"
                                  else str "negative"));
                        (str "confidence", VNumber confidence)])
              None))
    (fun error =>
       console_error (str "Erreur de classification:") error ;;;
       ret (NextResponse_json
              (VObject [(str "error",
                         VString (str "Erreur lors de la classification"))])
              (Some 500))).

(** The range of [Math.random]: a binary64 number with positive sign, at
    least [+0] and less than [1]. *)
Definition random_range (r : number) : bool :=
  match r with
  | S754_zero false => true
  | S754_finite false m e => bounded prec emax m e && lt r one
  | _ => false
  end.

Definition random_source_ok (w : world) : Prop :=
  forall n, random_range (random w n) = true.

(** [const { text } = await request.json()]: the value bound to [text], or
    the exception thrown on the way. *)
Definition read_text (request : NextRequest) : exn + value :=
  match json request with
  | inl e => inl e
  | inr parsed => get parsed (str "text")
  end.

(** A text the service is meant to classify: a string that is not empty. *)
Definition valid_text (t : value) : bool :=
  match t with
  | VString (_ :: _) => true
  | _ => false
  end.

(** The three responses the handler builds. *)
Definition text_required : NextResponse :=
  {| status := 400;
     body := VObject [(str "error", VString (str "Le texte est requis"))] |}.

Definition classification_error : NextResponse :=
  {| status := 500;
     body := VObject [(str "error",
                       VString (str "Erreur lors de la classification"))] |}.

Definition label (isPositive : bool) : jsstring :=
  if isPositive then str "positive" else str "negative".

Definition prediction (r1 r2 : number) : NextResponse :=
  {| status := 200;
     body := VObject [(str "sentiment", VString (label (gt r1 half)));
                      (str "confidence", VNumber (add half (mul r2 half)))] |}.

(** The world after a classification: two draws taken, one second slept. *)
Definition classified (w : world) : world :=
  {| random := random w; drawn := S (S (drawn w));
     slept := slept w + 1000; console := console w |}.

(** The world after the [catch] block logged [e]. *)
Definition logged (e : exn) (w : world) : world :=
  {| random := random w; drawn := drawn w; slept := slept w;
     console := console w ++ [(str "Erreur de classification:", e)] |}.

(** A request whose body is the JSON object [{ "text": t }]. *)
Definition classify_request (t : value) : NextRequest :=
  {| json := inr (VObject [(str "text", t)]) |}.

(** The members of a successful response. *)
Definition sentiment_of (r : NextResponse) : value :=
  lookup (str "sentiment") match body r with VObject ps => ps | _ => [] end.
Definition confidence_of (r : NextResponse) : value :=
  lookup (str "confidence") match body r with VObject ps => ps | _ => [] end.

End Route.

(** ** The page component *)

Module Page.

(** The component's state: the four [useState] cells of [Home].  The
    [prediction] cell holds [null] until a response body is stored in it. *)
Record HomeState : Type := {
  text : jsstring;
  prediction : value;
  loading : bool;
  error : option jsstring
}.

(** The [fetch] response, as far as [classifyText] looks at it. *)
Record Response : Type := { ok : bool; json : exn + value }.

(** The argument of [fetch].  [body] holds the value handed to
    [JSON.stringify]. *)
Record RequestInit : Type := {
  method : jsstring;
  headers : list (jsstring * jsstring);
  body : value
}.

(** The browser around the component: the component's state, what the
    network answers to a request (a response, or a rejected promise), the
    requests sent and the console. *)
Record browser : Type := {
  home : HomeState;
  network : jsstring -> RequestInit -> exn + Response;
  sent : list (jsstring * RequestInit);
  console : list exn
}.

Definition with_home (f : HomeState -> HomeState) : M browser unit :=
  fun b => (inr tt,
            {| home := f (home b); network := network b;
               sent := sent b; console := console b |}).

Definition setPrediction (p : value) : M browser unit :=
  with_home (fun h => {| text := text h; prediction := p;
                         loading := loading h; error := error h |}).

Definition setLoading (l : bool) : M browser unit :=
  with_home (fun h => {| text := text h; prediction := prediction h;
                         loading := l; error := error h |}).

Definition setError (e : option jsstring) : M browser unit :=
  with_home (fun h => {| text := text h; prediction := prediction h;
                         loading := loading h; error := e |}).

Definition fetch (url : jsstring) (init : RequestInit) : M browser Response :=
  fun b => (network b url init,
            {| home := home b; network := network b;
               sent := sent b ++ [(url, init)]; console := console b |}).

Definition console_error (e : exn) : M browser unit :=
  fun b => (inr tt,
            {| home := home b; network := network b;
               sent := sent b; console := console b ++ [e] |}).

(** The two messages [classifyText] can put in the [error] cell.  The first
    one has an [a] with grave accent, code unit 224. *)
Definition msg_enter_text : jsstring :=
  str "Veuillez entrer un texte " ++ [224%N] ++ str " classifier".
Definition msg_classification_failed : jsstring :=
  str "Une erreur est survenue lors de la classification".

Definition classify_init (t : jsstring) : RequestInit :=
  {| method := str "POST";
     headers := [(str "Content-Type", str "application/json")];
     body := VObject [(str "text", VString t)] |}.

(** [classifyText], as created by the render in which the [text] cell
    holds [text (home b)]. *)
Definition classifyText : M browser unit :=
  fun b =>
    let text := text (home b) in
    (if negb (truthy (VString (trim text))) then
       setError (Some msg_enter_text)
     else
       setLoading true ;;;
       setError None ;;;
       try_finally
         (try_catch
            (response <- fetch (str "/api/classify") (classify_init text) ;;
             (if negb (ok response) then
                throw (Error (str "Erreur lors de la classification"))
              else ret tt) ;;;
             data <- lift (json response) ;;
             setPrediction data)
            (fun err =>
               setError (Some msg_classification_failed) ;;;
               console_error err))
         (setLoading false)) b.

(** The component state with [error] replaced. *)
Definition with_error (e : option jsstring) (b : browser) : browser :=
  {| home := {| text := text (home b); prediction := prediction (home b);
                loading := loading (home b); error := e |};
     network := network b; sent := sent b; console := console b |}.

(** The two failures the page tells apart. *)
Inductive failure : Type := ValidationError | ServiceUnavailable.

(** Which failure, if any, a call of [classifyText] meets: the text is blank
    (empty, or white space only), or the request fails (the promise is
    rejected, the response is not OK, or its body cannot be read). *)
Definition failure_of (b : browser) : option failure :=
  let text := text (home b) in
  if forallb is_white_space text then Some ValidationError
  else
    match network b (str "/api/classify") (classify_init text) with
    | inl _ => Some ServiceUnavailable
    | inr response =>
        if ok response then
          match json response with
          | inl _ => Some ServiceUnavailable
          | inr _ => None
          end
        else Some ServiceUnavailable
    end.

Definition message_of (f : failure) : jsstring :=
  match f with
  | ValidationError => msg_enter_text
  | ServiceUnavailable => msg_classification_failed
  end.

(** [response.ok]: the status is in the range 200-299. *)
Definition status_ok (status : Z) : bool :=
  (200 <=? status) && (status <=? 299).

(** The network when the page talks to the route handler running in world
    [w]: the body goes through [JSON.stringify] and [request.json()]
    unchanged, and the handler's response comes back. *)
Definition served_by (w : Route.world)
  : jsstring -> RequestInit -> exn + Response :=
  fun _ init =>
    match Route.POST {| Route.json := inr (body init) |} w with
    | (inr r, _) =>
        inr {| ok := status_ok (Route.status r); json := inr (Route.body r) |}
    | (inl e, _) => inl e
    end.

End Page.

(** ** Rounding to binary64 *)

Definition fexp64 : Z -> Z := fexp 53 1024.

(** Shifting [m] right by [p] bits and rounding the result to nearest, ties
    to even: the first half of [binary_round_aux]. *)
Definition shift_round (m : Z) (p : positive) : Z :=
  let mrs := iter_pos shr_1 p {| shr_m := m; shr_r := false; shr_s := false |} in
  round_nearest_even (shr_m mrs) (loc_of_shr_record mrs).

(** The second half of [binary_round_aux]: renormalising the rounded
    mantissa. *)
Definition renormalize (sx : bool) (m1 e1 : Z) : spec_float :=
  let '(mrs, e) := shr_fexp 53 1024 m1 e1 loc_Exact in
  match shr_m mrs with
  | Z0 => S754_zero sx
  | Zpos m => if e <=? 1024 - 53 then S754_finite sx m e else S754_infinity sx
  | _ => S754_nan
  end.

(** ** Sample inputs *)

Definition quarter : number := S754_finite false 4503599627370496 (-54).
Definition three_quarters : number := S754_finite false 6755399441055744 (-53).

(** A fresh world whose [Math.random] gives [draws] and then [+0]. *)
Definition world_with (draws : list number) : Route.world :=
  {| Route.random := fun n => nth n draws zero;
     Route.drawn := 0; Route.slept := 0; Route.console := [] |}.

(** The text [good]. *)
Definition good : jsstring := str "good".

(** A page with [t] typed in, nothing shown, on network [net]. *)
Definition page_with (t : jsstring)
    (net : jsstring -> Page.RequestInit -> exn + Page.Response) : Page.browser :=
  {| Page.home := {| Page.text := t; Page.prediction := VNull;
                     Page.loading := false; Page.error := None |};
     Page.network := net; Page.sent := []; Page.console := [] |}.

(** ** Requests one after another *)

Module Serving.
Import Route.

(** Whether the handler classifies the request: its text is read and is a
    non-empty string. *)
Definition accepted (request : NextRequest) : bool :=
  match read_text request with
  | inr t => valid_text t
  | inl _ => false
  end.

(** The handler run on each request of a list in turn, each call starting
    in the world the one before left. *)
Fixpoint serve_all (requests : list NextRequest) : M world (list NextResponse) :=
  match requests with
  | [] => ret []
  | request :: rest =>
      response <- POST request ;;
      responses <- serve_all rest ;;
      ret (response :: responses)
  end.

Definition succeeded (response : NextResponse) : bool := status response =? 200.

(** The [error] member of a response body. *)
Definition error_of (r : NextResponse) : value :=
  lookup (str "error") match body r with VObject ps => ps | _ => [] end.

(** Two worlds in which [Math.random] will give the same results. *)
Definition same_draws (w1 w2 : world) : Prop :=
  random w1 = random w2 /\ drawn w1 = drawn w2.

End Serving.

(** ** Typing in the text area *)

Module Typing.
Import Page.




(** The page after a request for its text that failed with [e]: the old
    prediction stays, the failure message is set, [e] is on the console. *)
Definition failed (e : exn) (b : browser) : browser :=
  {| home := {| text := text (home b); prediction := prediction (home b);
                loading := false; error := Some msg_classification_failed |};
     network := network b;
     sent := sent b ++ [(str "/api/classify", classify_init (text (home b)))];
     console := console b ++ [e] |}.

(** The page after a request for its text that brought back [data]. *)
Definition stored (data : value) (b : browser) : browser :=
  {| home := {| text := text (home b); prediction := data;
                loading := false; error := None |};
     network := network b;
     sent := sent b ++ [(str "/api/classify", classify_init (text (home b)))];
     console := console b |}.

End Typing.

(** ** Numbers as text *)

Module Display.

(** Conversions of the platform that are taken as given: [ToNumber] of a
    string ([StringToNumber]) and the text of a number
    ([Number::toString]). *)
Record Builtins : Type := {
  StringToNumber : jsstring -> number;
  NumberToString : number -> jsstring
}.

(** Whether the object has an own property [k]. *)
Definition has_own (k : jsstring) (props : list (jsstring * value)) : bool :=
  existsb (fun p => jsstring_eqb k (fst p)) props.

(** [Array.prototype.join] with its default separator, given the
    conversion of one element: the elements are converted in turn and
    joined with commas. *)
Fixpoint join (element : value -> exn + jsstring) (xs : list value)
  : exn + jsstring :=
  match xs with
  | [] => inr []
  | x :: rest =>
      match element x with
      | inl e => inl e
      | inr s =>
          match rest with
          | [] => inr s
          | _ :: _ =>
              match join element rest with
              | inl e => inl e
              | inr t => inr (s ++ str "," ++ t)
              end
          end
      end
  end.

(** [ToString], for the values [JSON.parse] gives and [undefined].  A parsed
    object inherits [Object.prototype.toString] unless it has a member named
    [toString]; such a member is never a function, and then neither
    [toString] nor [valueOf] yields a primitive: a [TypeError].  An array
    goes through [join], where [null] and [undefined] give the empty
    string. *)
Fixpoint ToString (js : Builtins) (v : value) {struct v} : exn + jsstring :=
  match v with
  | VUndefined => inr (str "undefined")
  | VNull => inr (str "null")
  | VBool true => inr (str "true")
  | VBool false => inr (str "false")
  | VNumber n => inr (NumberToString js n)
  | VString s => inr s
  | VObject props =>
      if has_own (str "toString") props then inl TypeError
      else inr (str "[object Object]")
  | VArray xs =>
      join (fun x => match x with
                     | VUndefined | VNull => inr []
                     | _ => ToString js x
                     end) xs
  end.

(** [ToNumber], for the values [JSON.parse] gives and [undefined]: an array
    or an object is first turned into a string, which can throw. *)
Definition ToNumber (js : Builtins) (v : value) : exn + number :=
  match v with
  | VUndefined => inr S754_nan
  | VNull => inr zero
  | VBool true => inr one
  | VBool false => inr zero
  | VNumber n => inr n
  | VString s => inr (StringToNumber js s)
  | VArray _ | VObject _ =>
      match ToString js v with
      | inl e => inl e
      | inr s => inr (StringToNumber js s)
      end
  end.

(** The literal [100]. *)
Definition hundred : number := S754_finite false 7036874417766400 (-46).

(** Whether [m * 2^e] is at least [10^21]. *)
Definition at_least_1e21 (m : positive) (e : Z) : bool :=
  if 0 <=? e then 10 ^ 21 <=? Zpos m * 2 ^ e
  else 10 ^ 21 * 2 ^ (- e) <=? Zpos m.

(** The integer [n] for which [n / 100] is closest to [m * 2^e], the larger
    one when two are as close. *)
Definition hundredths (m : positive) (e : Z) : Z :=
  if 0 <=? e then 100 * (Zpos m * 2 ^ e)
  else (200 * Zpos m + 2 ^ (- e)) / (2 * 2 ^ (- e)).

Fixpoint digits (u : Decimal.uint) : jsstring :=
  match u with
  | Decimal.Nil => []
  | Decimal.D0 u => 48%N :: digits u
  | Decimal.D1 u => 49%N :: digits u
  | Decimal.D2 u => 50%N :: digits u
  | Decimal.D3 u => 51%N :: digits u
  | Decimal.D4 u => 52%N :: digits u
  | Decimal.D5 u => 53%N :: digits u
  | Decimal.D6 u => 54%N :: digits u
  | Decimal.D7 u => 55%N :: digits u
  | Decimal.D8 u => 56%N :: digits u
  | Decimal.D9 u => 57%N :: digits u
  end.

(** The decimal digits of a natural number; [0] for zero. *)
Definition decimal (n : Z) : jsstring := digits (N.to_uint (Z.to_N n)).

(** The digits of [n] with a point before the last two, after padding with
    zeros on the left to three digits. *)
Definition point_two (n : Z) : jsstring :=
  let m := decimal n in
  let m := repeat 48%N (3 - List.length m) ++ m in
  firstn (List.length m - 2) m ++ str "." ++ skipn (List.length m - 2) m.

(** The code unit of the decimal digit [d]. *)
Definition digit (d : Z) : N := (48 + Z.to_N d)%N.

(** [x.toFixed(2)] *)
Definition toFixed2 (js : Builtins) (x : number) : jsstring :=
  match x with
  | S754_nan => str "NaN"
  | S754_infinity _ => NumberToString js x
  | S754_zero _ => point_two 0
  | S754_finite s m e =>
      (if s then str "-" else []) ++
      (if at_least_1e21 m e then NumberToString js (S754_finite false m e)
       else point_two (hundredths m e))
  end.

End Display.

(** ** What the page shows *)

Module View.
Import Page Display.

Inductive handler : Type :=
| onChange_setText
| onClick_classifyText.

Inductive attr : Type :=
| AString (s : jsstring)
| ABool (b : bool)
| AHandler (h : handler).

(** A React node: a JavaScript value in child position (strings and numbers
    show as text; [null], [undefined] and booleans show nothing), an element
    with its props and children, or a fragment. *)
#[local] Set Warnings "-register-all".
Inductive node : Type :=
| Expr (v : value)
| Element (type : jsstring) (props : list (jsstring * attr)) (children : list node)
| Fragment (children : list node).

Definition words (s : string) : node := Expr (VString (str s)).

(** [v === s] for a string [s] *)
Definition strict_equals (v : value) (s : jsstring) : bool :=
  match v with
  | VString s' => jsstring_eqb s' s
  | _ => false
  end.

Definition and_then {A B} (r : exn + A) (k : A -> exn + B) : exn + B :=
  match r with
  | inl e => inl e
  | inr a => k a
  end.

Notation "'let?' x := r 'in' k" := (and_then r (fun x => k))
  (at level 10, x name, r at level 100, k at level 200).

Definition negatif : jsstring := str "N" ++ [233%N] ++ str "gatif".

(** The JSX [Home] returns, for the state [h]; an exception thrown while it
    is evaluated leaves the render. *)
Definition Home (js : Builtins) (h : HomeState) : exn + node :=
  let text := text h in
  let prediction := prediction h in
  let loading := loading h in
  let error := error h in
  let? card :=
    if truthy prediction then
      let? s1 := get prediction (str "sentiment") in
      let? s2 := get prediction (str "sentiment") in
      let? s3 := get prediction (str "sentiment") in
      let? c := get prediction (str "confidence") in
      let? x := ToNumber js c in
      inr (Element (str "Card")
             [(str "className",
               AString (str "border " ++
                        (if strict_equals s1 (str "positive")
                         then str "border-green-200 bg-green-50"
                         else str "border-red-200 bg-red-50")))]
             [Element (str "CardContent") [(str "className", AString (str "pt-4"))]
                [Element (str "div")
                   [(str "className", AString (str "flex items-center gap-2"))]
                   [(if strict_equals s2 (str "positive")
                     then Element (str "CheckCircle")
                            [(str "className", AString (str "h-5 w-5 text-green-600"))] []
                     else Element (str "XCircle")
                            [(str "className", AString (str "h-5 w-5 text-red-600"))] []);
                    Element (str "span")
                      [(str "className", AString (str "font-medium"))]
                      [words "Sentiment: ";
                       Expr (VString (if strict_equals s3 (str "positive")
                                      then str "Positif" else negatif))]];
                 Element (str "div") [(str "className", AString (str "mt-2"))]
                   [Element (str "span")
                      [(str "className", AString (str "text-sm text-gray-600"))]
                      [words "Confiance: ";
                       Expr (VString (toFixed2 js (mul x hundred)));
                       words "%"]]]])
    else inr (Expr prediction)
  in
  inr (Element (str "main")
         [(str "className",
           AString (str "flex min-h-screen flex-col items-center justify-center p-4 bg-gray-50"))]
         [Element (str "Card") [(str "className", AString (str "w-full max-w-2xl"))]
            [Element (str "CardHeader") []
               [Element (str "CardTitle")
                  [(str "className", AString (str "text-2xl font-bold"))]
                  [words "Classification de Texte MLOps"];
                Element (str "CardDescription") []
                  [Expr (VString (str "Entrez un texte pour le classifier comme positif ou n"
                                  ++ [233%N] ++ str "gatif"))]];
             Element (str "CardContent") [(str "className", AString (str "space-y-4"))]
               [Element (str "Textarea")
                  [(str "placeholder", AString (str "Entrez votre texte ici..."));
                   (str "className", AString (str "min-h-32"));
                   (str "value", AString text);
                   (str "onChange", AHandler onChange_setText)] [];
                match error with
                | None => Expr VNull
                | Some e =>
                    if truthy (VString e) then
                      Element (str "div")
                        [(str "className",
                          AString (str "p-3 bg-red-50 text-red-700 rounded-md text-sm"))]
                        [Expr (VString e)]
                    else Expr (VString e)
                end;
                card];
             Element (str "CardFooter") []
               [Element (str "Button")
                  [(str "onClick", AHandler onClick_classifyText);
                   (str "disabled", ABool loading);
                   (str "className", AString (str "w-full"))]
                  [if loading then
                     Fragment
                       [Element (str "Loader2")
                          [(str "className", AString (str "mr-2 h-4 w-4 animate-spin"))] [];
                        words "Classification en cours..."]
                   else words "Classifier"]]]]).

(** [prediction.sentiment], for a prediction that can be read from. *)
Definition sentiment (prediction : value) : value :=
  match get prediction (str "sentiment") with
  | inr v => v
  | inl _ => VUndefined
  end.

(** [prediction.sentiment === "positive"] *)
Definition positive (prediction : value) : bool :=
  strict_equals (sentiment prediction) (str "positive").

(** [prediction.confidence * 100] before the multiplication: the number
    the confidence converts to, or the exception of the conversion. *)
Definition confidence_number (js : Builtins) (prediction : value) : exn + number :=
  let? c := get prediction (str "confidence") in
  ToNumber js c.

(** Whether the state can be rendered: there is no card to draw, or the
    confidence on it converts to a number. *)
Definition renders (js : Builtins) (h : HomeState) : bool :=
  if truthy (prediction h) then
    match confidence_number js (prediction h) with
    | inr _ => true
    | inl _ => false
    end
  else true.

(** The line of the card that names the sentiment. *)
Definition sentiment_line (p : bool) : node :=
  Element (str "span") [(str "className", AString (str "font-medium"))]
    [words "Sentiment: "; Expr (VString (if p then str "Positif" else negatif))].

(** The line of the card that gives the confidence, showing [shown]. *)
Definition confidence_line (shown : jsstring) : node :=
  Element (str "span") [(str "className", AString (str "text-sm text-gray-600"))]
    [words "Confiance: "; Expr (VString shown); words "%"].

(** The red box with an error message. *)
Definition banner (message : jsstring) : node :=
  Element (str "div")
    [(str "className", AString (str "p-3 bg-red-50 text-red-700 rounded-md text-sm"))]
    [Expr (VString message)].

(** The button as it is when nothing is loading. *)
Definition idle_button : node :=
  Element (str "Button")
    [(str "onClick", AHandler onClick_classifyText);
     (str "disabled", ABool false);
     (str "className", AString (str "w-full"))]
    [words "Classifier"].

(** The node itself and all nodes below it, in document order. *)
Fixpoint descendants (n : node) : list node :=
  n :: match n with
       | Expr _ => []
       | Element _ _ children => flat_map descendants children
       | Fragment children => flat_map descendants children
       end.

Definition has_type (t : jsstring) (n : node) : bool :=
  match n with
  | Element t' _ _ => jsstring_eqb t' t
  | _ => false
  end.

(** The elements of type [t] in the tree, in document order. *)
Definition by_type (t : string) (n : node) : list node :=
  filter (has_type (str t)) (descendants n).

Definition has_class (c : jsstring) (n : node) : bool :=
  match n with
  | Element _ props _ =>
      existsb (fun p => match p with
                        | (k, AString v) => jsstring_eqb k (str "className") && jsstring_eqb v c
                        | _ => false
                        end) props
  | _ => false
  end.

(** The elements with exactly the class list [c]. *)
Definition by_class (c : string) (n : node) : list node :=
  filter (has_class (str c)) (descendants n).

Definition children_of (n : node) : list node :=
  match n with
  | Element _ _ children => children
  | Fragment children => children
  | Expr _ => []
  end.

End View.

(** Builtins for the examples: their two conversions are not looked at. *)
Definition plain : Display.Builtins :=
  {| Display.StringToNumber := fun _ => S754_nan;
     Display.NumberToString := fun _ => [] |}.

(** A response body whose [confidence] cannot be converted to a number:
    [{ "confidence": { "toString": 0 } }]. *)
Definition unconvertible : value :=
  VObject [(str "confidence", VObject [(str "toString", VNumber zero)])].

(** * Properties *)

(** ** Binary64 arithmetic of [0.5 + r * 0.5] *)

Module Binary64.

(** Goals about [fexp] at precision 53 are linear once it is unfolded. *)
Ltac fexp_lia := unfold fexp64, fexp, emin in *; lia.

(** *** Number of bits of a mantissa *)

Lemma digits2_pos_bounds (p : positive) :
  2 ^ (Zpos (digits2_pos p) - 1) <= Zpos p < 2 ^ Zpos (digits2_pos p).
Proof.
  induction p as [p IH | p IH | ]; cbn [digits2_pos].
  1, 2: rewrite Pos2Z.inj_succ;
    replace (Z.succ (Z.pos (digits2_pos p)) - 1)
      with (Z.succ (Z.pos (digits2_pos p) - 1)) by lia;
    rewrite !Z.pow_succ_r by lia; lia.
  cbn. lia.
Qed.

Lemma digits2_pos_unique (p : positive) (d : Z) :
  2 ^ (d - 1) <= Zpos p < 2 ^ d -> Zpos (digits2_pos p) = d.
Proof.
  intros [Hlo Hhi].
  pose proof (digits2_pos_bounds p) as [Blo Bhi].
  assert (Hd : 0 < d).
  { destruct (Z.ltb_spec 0 d) as [ | Hd]; [assumption|].
    destruct (Z.eq_dec d 0) as [-> | ]; [cbn in Hhi; lia|].
    rewrite Z.pow_neg_r in Hhi by lia. lia. }
  assert (Hup : Z.pos (digits2_pos p) - 1 < d).
  { apply (Z.pow_lt_mono_r_iff 2); lia. }
  assert (Hdown : d - 1 < Z.pos (digits2_pos p)).
  { apply (Z.pow_lt_mono_r_iff 2); lia. }
  lia.
Qed.

(** *** Shifting right, one bit at a time *)

Lemma iter_pos_nat {A} (f : A -> A) (p : positive) (x : A) :
  iter_pos f p x = Nat.iter (Pos.to_nat p) f x.
Proof.
  revert x; induction p as [p IH | p IH | ]; intros x; cbn [iter_pos].
  - rewrite !IH, Pos2Nat.inj_xI.
    replace (S (2 * Pos.to_nat p)) with (Pos.to_nat p + (Pos.to_nat p + 1))%nat by lia.
    rewrite !Nat.iter_add. reflexivity.
  - rewrite !IH, Pos2Nat.inj_xO.
    replace (2 * Pos.to_nat p)%nat with (Pos.to_nat p + Pos.to_nat p)%nat by lia.
    rewrite Nat.iter_add. reflexivity.
  - reflexivity.
Qed.

(** One step halves the mantissa, moves its last bit to the round bit and
    folds the old round bit into the sticky bit. *)
Lemma shr_1_spec (mrs : shr_record) :
  0 <= shr_m mrs ->
  shr_m (shr_1 mrs) = shr_m mrs / 2 /\
  shr_r (shr_1 mrs) = Z.odd (shr_m mrs) /\
  shr_s (shr_1 mrs) = shr_r mrs || shr_s mrs.
Proof.
  destruct mrs as [m r s]; cbn [shr_m shr_r shr_s]; intros Hm.
  destruct m as [ | [p | p | ] | p]; cbn [shr_1 shr_m shr_r shr_s]; try lia;
    (split; [ | split; reflexivity]).
  - reflexivity.
  - rewrite Pos2Z.inj_xI. apply (Z.div_unique _ 2 _ 1); lia.
  - rewrite Pos2Z.inj_xO. apply (Z.div_unique _ 2 _ 0); lia.
  - reflexivity.
Qed.

(** [k] steps divide by [2^k]; when nothing is lost, both bits stay clear. *)
Lemma shr_iter_spec (k : nat) (m : Z) :
  0 <= m ->
  let mrs := Nat.iter k shr_1 {| shr_m := m; shr_r := false; shr_s := false |} in
  shr_m mrs = m / 2 ^ Z.of_nat k /\
  (m mod 2 ^ Z.of_nat k = 0 -> shr_r mrs = false /\ shr_s mrs = false).
Proof.
  intros Hm. induction k as [ | k IH].
  - cbn. rewrite Z.div_1_r. auto.
  - cbn zeta in *. rewrite Nat.iter_succ.
    destruct IH as [IHm IHx].
    set (mrs := Nat.iter k shr_1 _) in *.
    assert (Hnn : 0 <= shr_m mrs).
    { rewrite IHm. apply Z.div_pos; [lia | apply Z.pow_pos_nonneg; lia]. }
    destruct (shr_1_spec mrs Hnn) as (Em & Er & Es).
    rewrite Nat2Z.inj_succ, Z.pow_succ_r by lia.
    assert (Hp : 0 < 2 ^ Z.of_nat k) by (apply Z.pow_pos_nonneg; lia).
    split.
    + rewrite Em, IHm, Z.div_div by lia. f_equal; lia.
    + intros Hmod.
      assert (Hmod' : m mod 2 ^ Z.of_nat k = 0).
      { rewrite Z.mul_comm, Z.rem_mul_r in Hmod by lia.
        pose proof (Z.mod_pos_bound m (2 ^ Z.of_nat k) Hp).
        pose proof (Z.mod_pos_bound (m / 2 ^ Z.of_nat k) 2 ltac:(lia)). nia. }
      destruct (IHx Hmod') as [Hr Hs].
      rewrite Er, Es, Hr, Hs, IHm. split; [|reflexivity].
      rewrite Z.mul_comm, Z.rem_mul_r, Hmod' in Hmod by lia.
      rewrite <- Z.negb_even, Zeven_mod.
      pose proof (Z.mod_pos_bound (m / 2 ^ Z.of_nat k) 2 ltac:(lia)).
      replace ((m / 2 ^ Z.of_nat k) mod 2) with 0 by nia. reflexivity.
Qed.

Lemma round_nearest_even_bounds (m : Z) (l : location) :
  m <= round_nearest_even m l <= m + 1.
Proof.
  destruct l as [ | [ | | ]]; cbn [round_nearest_even]; try lia.
  destruct (Z.even m); lia.
Qed.

Lemma shift_round_bounds (m : Z) (p : positive) :
  0 <= m ->
  m / 2 ^ Zpos p <= shift_round m p <= m / 2 ^ Zpos p + 1.
Proof.
  intros Hm. unfold shift_round. rewrite iter_pos_nat.
  destruct (shr_iter_spec (Pos.to_nat p) m Hm) as [Em _].
  rewrite positive_nat_Z in Em. rewrite <- Em.
  apply round_nearest_even_bounds.
Qed.

Lemma shift_round_exact (m : Z) (p : positive) :
  0 <= m -> m mod 2 ^ Zpos p = 0 -> shift_round m p = m / 2 ^ Zpos p.
Proof.
  intros Hm Hmod. unfold shift_round. rewrite iter_pos_nat.
  destruct (shr_iter_spec (Pos.to_nat p) m Hm) as [Em Ex].
  rewrite positive_nat_Z in Em, Ex. destruct (Ex Hmod) as [Hr Hs].
  destruct (Nat.iter _ _ _) as [m' r s]; cbn [shr_m shr_r shr_s] in *.
  subst. reflexivity.
Qed.

(** *** The two halves of [binary_round_aux] *)

Lemma binary_round_aux_shift (sx : bool) (m : positive) (e : Z) (p : positive) :
  fexp64 (Zpos (digits2_pos m) + e) - e = Zpos p ->
  binary_round_aux 53 1024 sx (Zpos m) e loc_Exact
  = renormalize sx (shift_round (Zpos m) p) (e + Zpos p).
Proof.
  unfold fexp64. intros H. unfold binary_round_aux, renormalize.
  unfold shr_fexp at 1. cbn [Zdigits2 shr_record_of_loc].
  rewrite H. reflexivity.
Qed.

Lemma renormalize_canonical (sx : bool) (m : positive) (e : Z) :
  fexp64 (Zpos (digits2_pos m) + e) = e -> e <= 971 ->
  renormalize sx (Zpos m) e = S754_finite sx m e.
Proof.
  unfold fexp64. intros H He. unfold renormalize, shr_fexp.
  cbn [Zdigits2 shr_record_of_loc].
  rewrite H, Z.sub_diag. cbn [shr shr_m].
  replace (e <=? 1024 - 53) with true by (symmetry; apply Z.leb_le; lia).
  reflexivity.
Qed.

Lemma renormalize_zero (sx : bool) (e : Z) :
  e = -1074 -> renormalize sx 0 e = S754_zero sx.
Proof. intros ->. reflexivity. Qed.

Lemma pos_iter_xO (m d : positive) : Zpos (Pos.iter xO m d) = Zpos m * 2 ^ Zpos d.
Proof.
  change (Pos.iter xO m d) with (shift_pos d m).
  rewrite shift_pos_correct, Z.pow_pos_fold. apply Z.mul_comm.
Qed.

(** *** The results of [Math.random] *)

(** A finite draw is in canonical form and has an exponent of at most
    [-53]. *)
Lemma random_range_finite (m : positive) (e : Z) :
  Route.random_range (S754_finite false m e) = true ->
  fexp64 (Zpos (digits2_pos m) + e) = e /\ e <= -53.
Proof.
  unfold Route.random_range, lt, bounded, canonical_mantissa.
  rewrite !andb_true_iff, Z.eqb_eq, Z.leb_le.
  intros [[Hc He] Hlt]. split; [exact Hc|].
  unfold SFltb, one, SFcompare in Hlt.
  destruct (Z.compare_spec e (-52)) as [-> | Hl | Hg]; [ | lia | discriminate].
  rewrite Pos.compare_cont_spec in Hlt. cbn [Pos.switch_Eq] in Hlt.
  destruct (Pos.compare_spec m 4503599627370496) as [ | Hm | ]; try discriminate.
  exfalso. unfold fexp, JS.prec, JS.emax, emin in Hc.
  assert (Hd : Z.pos (digits2_pos m) = 53) by (clear - Hc; lia).
  pose proof (digits2_pos_bounds m) as [Blo _].
  rewrite Hd in Blo. change (2 ^ (53 - 1)) with 4503599627370496 in Blo.
  apply Pos2Z.pos_lt_pos in Hm. clear - Hm Blo. lia.
Qed.

Lemma random_range_digits (m : positive) (e : Z) :
  Route.random_range (S754_finite false m e) = true ->
  e <= -53 /\
  ((Zpos (digits2_pos m) = 53 /\ -1074 < e) \/
   (e = -1074 /\ Zpos (digits2_pos m) <= 53)).
Proof.
  intros H. destruct (random_range_finite m e H) as [Hc He].
  split; [exact He|]. clear - Hc. fexp_lia.
Qed.

(** *** [r * 0.5] *)

(** [r * 0.5] for a full 53-bit mantissa above the least exponent: exact,
    the exponent goes down by one. *)
Lemma mul_half_normal (m : positive) (e : Z) :
  Zpos (digits2_pos m) = 53 -> -1074 < e -> e <= -53 ->
  mul (S754_finite false m e) half = S754_finite false m (e - 1).
Proof.
  intros Hd Hlo Hhi. unfold mul, JS.prec, JS.emax, half, SFmul. cbn [xorb].
  pose proof (digits2_pos_bounds m) as [Blo Bhi]. rewrite Hd in Blo, Bhi.
  assert (Hprod : Zpos (m * 4503599627370496) = Zpos m * 2 ^ 52) by reflexivity.
  assert (Hdp : Zpos (digits2_pos (m * 4503599627370496)) = 105).
  { apply digits2_pos_unique. rewrite Hprod.
    change (2 ^ (105 - 1)) with (2 ^ (53 - 1) * 2 ^ 52).
    change (2 ^ 105) with (2 ^ 53 * 2 ^ 52).
    clear - Blo Bhi. nia. }
  rewrite (binary_round_aux_shift _ _ _ 52).
  2:{ rewrite Hdp. clear - Hlo. fexp_lia. }
  rewrite shift_round_exact; rewrite Hprod.
  - rewrite Z.div_mul by (clear; lia).
    replace (e + -53 + 52) with (e - 1) by (clear; lia).
    apply renormalize_canonical.
    + rewrite Hd. clear - Hlo. fexp_lia.
    + clear - Hhi. lia.
  - clear; lia.
  - apply Z.mod_mul. clear; lia.
Qed.

Lemma digits2_pos_le (q : positive) (d : Z) :
  0 <= d -> Zpos q < 2 ^ d -> Zpos (digits2_pos q) <= d.
Proof.
  intros Hd Hq. pose proof (digits2_pos_bounds q) as [Blo _].
  assert (Z.pos (digits2_pos q) - 1 < d); [ | lia].
  apply (Z.pow_lt_mono_r_iff 2); lia.
Qed.

Lemma digits2_pos_shift (m : positive) (k : Z) (mk : positive) :
  0 <= k -> Zpos mk = Zpos m * 2 ^ k ->
  Zpos (digits2_pos mk) = Zpos (digits2_pos m) + k.
Proof.
  intros Hk E. apply digits2_pos_unique. rewrite E.
  pose proof (digits2_pos_bounds m) as [Blo Bhi].
  replace (Z.pos (digits2_pos m) + k - 1) with (Z.pos (digits2_pos m) - 1 + k) by lia.
  rewrite !Z.pow_add_r by lia.
  assert (0 < 2 ^ k) by (apply Z.pow_pos_nonneg; lia). nia.
Qed.

(** [r * 0.5] for [r] with the least exponent: the mantissa is halved and
    rounded, and may vanish. *)
Lemma mul_half_subnormal (m : positive) :
  Zpos (digits2_pos m) <= 53 ->
  mul (S754_finite false m (-1074)) half = S754_zero false \/
  exists q, mul (S754_finite false m (-1074)) half
            = S754_finite false q (-1074) /\ Zpos q <= 2 ^ 52.
Proof.
  intros Hd. unfold mul, JS.prec, JS.emax, half, SFmul. cbn [xorb].
  assert (Hprod : Zpos (m * 4503599627370496) = Zpos m * 2 ^ 52) by reflexivity.
  pose proof (digits2_pos_shift m 52 _ ltac:(lia) Hprod) as Hdp.
  rewrite (binary_round_aux_shift _ _ _ 53).
  2:{ rewrite Hdp. clear - Hd. fexp_lia.  }
  pose proof (shift_round_bounds (Zpos (m * 4503599627370496)) 53 ltac:(lia)) as Hb.
  rewrite Hprod in Hb.
  change (2 ^ 53) with (2 * 2 ^ 52) in Hb.
  rewrite Z.div_mul_cancel_r in Hb by (clear; lia).
  assert (Hm : Zpos m < 2 ^ 53).
  { pose proof (digits2_pos_bounds m) as [_ Bhi].
    eapply Z.lt_le_trans; [exact Bhi|]. apply Z.pow_le_mono_r; lia. }
  assert (Hq : Zpos m / 2 + 1 <= 2 ^ 52).
  { clear - Hm. change (2 ^ 53) with (2 * 2 ^ 52) in Hm.
    assert (Zpos m / 2 < 2 ^ 52); [ | lia].
    apply Z.div_lt_upper_bound; lia. }
  change (-1074 + -53 + 53) with (-1074).
  destruct (shift_round _ _) as [ | q | q].
  - left. apply renormalize_zero; reflexivity.
  - right. exists q. split; [ | clear - Hb Hq; lia].
    apply renormalize_canonical; [ | clear; lia].
    assert (Hdq : Zpos (digits2_pos q) <= 53).
    { apply digits2_pos_le; [lia|]. change (2 ^ 53) with (2 * 2 ^ 52).
      clear - Hb Hq. lia. }
    clear - Hdq. fexp_lia.
  - exfalso. assert (Hnn : 0 <= Zpos m / 2) by (apply Z.div_pos; lia). lia.
Qed.

(** *** [0.5 + y] *)

(** [0.5 + y] for a positive [y] below [0.5]: the sum is rounded to 53 bits
    at exponent [-53]; the mantissa can reach [2^53], which is [1]. *)
Lemma add_half_small (my d : positive) :
  Zpos my < 2 ^ 52 * 2 ^ Zpos d ->
  exists m1 : Z,
    add half (S754_finite false my (-53 - Zpos d))
    = renormalize false m1 (-53) /\
    2 ^ 52 <= m1 <= 2 ^ 53 /\
    (Zpos my <= (2 ^ 52 - 1) * 2 ^ Zpos d -> m1 < 2 ^ 53).
Proof.
  intros Hy. set (ey := -53 - Zpos d).
  assert (Hpd : 0 < 2 ^ Zpos d) by (apply Z.pow_pos_nonneg; lia).
  unfold add, JS.prec, JS.emax, half, SFadd. cbv zeta.
  rewrite Z.min_r by (unfold ey; clear; lia).
  unfold shl_align at 1 2.
  replace (ey - -53) with (Zneg d) by (unfold ey; clear; lia).
  rewrite Z.sub_diag. cbn [fst cond_Zopp Z.add binary_normalize].
  set (M := (Pos.iter xO 4503599627370496 d + my)%positive).
  assert (HM : Zpos M = 2 ^ 52 * 2 ^ Zpos d + Zpos my).
  { unfold M. rewrite Pos2Z.inj_add, pos_iter_xO. reflexivity. }
  assert (HdM : Zpos (digits2_pos M) = 53 + Zpos d).
  { apply digits2_pos_unique. rewrite HM.
    replace (53 + Zpos d - 1) with (52 + Zpos d) by (clear; lia).
    rewrite !Z.pow_add_r by (clear; lia).
    change (2 ^ 53) with (2 * 2 ^ 52). clear - Hy Hpd. nia. }
  unfold binary_round. rewrite HdM.
  replace (53 + Zpos d + ey) with 0 by (unfold ey; clear; lia).
  unfold shl_align.
  replace (fexp 53 1024 0 - ey) with (Zpos d) by (unfold ey, fexp, emin; clear; lia).
  rewrite (binary_round_aux_shift _ _ _ d).
  2:{ rewrite HdM. unfold ey. clear. fexp_lia. }
  replace (ey + Zpos d) with (-53) by (unfold ey; clear; lia).
  exists (shift_round (Zpos M) d). split; [reflexivity|].
  pose proof (shift_round_bounds (Zpos M) d ltac:(lia)) as Hb.
  assert (Hlo : 2 ^ 52 <= Zpos M / 2 ^ Zpos d).
  { apply Z.div_le_lower_bound; [exact Hpd|]. rewrite HM. clear - Hpd. lia. }
  assert (Hhi : Zpos M / 2 ^ Zpos d < 2 ^ 53).
  { apply Z.div_lt_upper_bound; [exact Hpd|]. rewrite HM.
    change (2 ^ 53) with (2 * 2 ^ 52). clear - Hy Hpd. nia. }
  split; [clear - Hb Hlo Hhi; lia|].
  intros Hs.
  destruct (Z.eq_dec (Zpos my) ((2 ^ 52 - 1) * 2 ^ Zpos d)) as [E | NE].
  - assert (HM' : Zpos M = (2 ^ 53 - 1) * 2 ^ Zpos d).
    { rewrite HM, E. change (2 ^ 53) with (2 * 2 ^ 52). ring. }
    rewrite shift_round_exact; rewrite ?HM'.
    + rewrite Z.div_mul by (clear - Hpd; lia). clear; lia.
    + clear - Hpd; nia.
    + apply Z.mod_mul. clear - Hpd; lia.
  - assert (Hq : Zpos M / 2 ^ Zpos d < 2 ^ 53 - 1); [ | clear - Hb Hq; lia].
    apply Z.div_lt_upper_bound; [exact Hpd|]. rewrite HM.
    change (2 ^ 53) with (2 * 2 ^ 52). clear - Hs NE Hpd. nia.
Qed.

(** A mantissa of 53 bits is kept; [2^53] is carried into the next binade
    and gives [1]. *)
Lemma renormalize_binade (m1 : Z) :
  2 ^ 52 <= m1 <= 2 ^ 53 ->
  (m1 < 2 ^ 53 /\
   exists m, m1 = Zpos m /\ renormalize false m1 (-53) = S754_finite false m (-53)) \/
  (m1 = 2 ^ 53 /\ renormalize false m1 (-53) = one).
Proof.
  intros [Hlo Hhi].
  destruct (Z.eq_dec m1 (2 ^ 53)) as [-> | NE].
  - right. split; reflexivity.
  - left. split; [lia|].
    destruct m1 as [ | m | m];
      try (exfalso; change (2 ^ 52) with 4503599627370496 in Hlo; lia).
    exists m. split; [reflexivity|].
    apply renormalize_canonical; [ | lia].
    assert (Zpos (digits2_pos m) = 53) as ->.
    { apply digits2_pos_unique. change (53 - 1) with 52. lia. }
    reflexivity.
Qed.

(** *** [0.5 + r * 0.5] *)

Lemma confidence_rounding (r : number) :
  Route.random_range r = true ->
  exists m1 : Z,
    add half (mul r half) = renormalize false m1 (-53) /\
    2 ^ 52 <= m1 <= 2 ^ 53 /\
    (lt r pred_one = true -> m1 < 2 ^ 53).
Proof.
  intros Hr. destruct r as [[ | ] | | | [ | ] m e]; try discriminate Hr.
  - exists (2 ^ 52). split; [reflexivity|]. split; [lia|]. intros _; reflexivity.
  - destruct (random_range_digits m e Hr) as [He [[Hd Hlo] | [-> Hd]]].
    + rewrite (mul_half_normal m e Hd Hlo He).
      pose proof (digits2_pos_bounds m) as [_ Bhi]. rewrite Hd in Bhi.
      set (d := Z.to_pos (-52 - e)).
      assert (Ed : Zpos d = -52 - e) by (unfold d; rewrite Z2Pos.id; lia).
      assert (Hpd : 2 <= 2 ^ Zpos d).
      { change 2 with (2 ^ 1) at 1. apply Z.pow_le_mono_r; lia. }
      replace (e - 1) with (-53 - Zpos d) by lia.
      destruct (add_half_small m d) as (m1 & E & Hb & Hs).
      { change (2 ^ 53) with (2 ^ 52 * 2) in Bhi. clear - Bhi Hpd. nia. }
      exists m1. split; [exact E|]. split; [exact Hb|].
      intros Hlt. apply Hs. clear Hs E.
      unfold lt, SFltb, pred_one, SFcompare in Hlt.
      destruct (Z.compare_spec e (-53)) as [-> | Hl | Hg]; [ | | discriminate].
      * rewrite Pos.compare_cont_spec in Hlt. cbn [Pos.switch_Eq] in Hlt.
        destruct (Pos.compare_spec m 9007199254740991) as [ | Hm | ]; try discriminate.
        apply Pos2Z.pos_lt_pos in Hm.
        replace d with 1%positive by lia.
        change ((2 ^ 52 - 1) * 2 ^ 1) with 9007199254740990. clear - Hm. lia.
      * assert (H4 : 2 ^ 2 <= 2 ^ Zpos d) by (apply Z.pow_le_mono_r; lia).
        change (2 ^ 53) with 9007199254740992 in Bhi.
        change (2 ^ 52 - 1) with 4503599627370495.
        change (2 ^ 2) with 4 in H4. clear - Bhi H4. nia.
    + destruct (mul_half_subnormal m Hd) as [-> | (q & -> & Hq)].
      * exists (2 ^ 52). split; [reflexivity|]. split; [lia|]. intros _; reflexivity.
      * assert (Hp : 2 ^ 2 <= 2 ^ 1021) by (apply Z.pow_le_mono_r; lia).
        change (2 ^ 2) with 4 in Hp.
        destruct (add_half_small q 1021) as (m1 & E & Hb & Hs).
        { change (Zpos 1021) with 1021. clear - Hq Hp.
          change (2 ^ 52) with 4503599627370496 in *. nia. }
        exists m1. split; [exact E|]. split; [exact Hb|].
        intros _. apply Hs. change (Zpos 1021) with 1021. clear - Hq Hp.
        change (2 ^ 52) with 4503599627370496 in *. nia.
Qed.

(** The result lies in the binade of [0.5], or is [1]; the latter only for
    a draw that is not below [pred_one]. *)
Lemma confidence_cases (r : number) :
  Route.random_range r = true ->
  (exists m, add half (mul r half) = S754_finite false m (-53) /\
             2 ^ 52 <= Zpos m < 2 ^ 53) \/
  (add half (mul r half) = one /\ lt r pred_one = false).
Proof.
  intros Hr. destruct (confidence_rounding r Hr) as (m1 & E & Hb & Hs).
  destruct (renormalize_binade m1 Hb) as [[Hlt (m & -> & Em)] | [-> Em]].
  - left. exists m. rewrite E, Em. split; [reflexivity | lia].
  - right. rewrite E, Em. split; [reflexivity|].
    destruct (lt r pred_one); [ | reflexivity].
    specialize (Hs eq_refl). lia.
Qed.

End Binary64.

(** ** The route handler, case by case *)

Module RouteFacts.
Import Route.

(** The handler's guard [!text || typeof text !== "string"] lets through
    exactly the non-empty strings. *)
Lemma guard_valid_text (t : value) :
  negb (truthy t) || negb (jstype_eqb (typeof t) TString) = negb (valid_text t).
Proof.
  destruct t as [ | | b | n | [ | c s] | xs | ps]; cbn [typeof jstype_eqb negb];
    rewrite ?orb_true_r; reflexivity.
Qed.

(** Reading the body or destructuring it throws: the [catch] block logs the
    exception and answers 500. *)
Lemma POST_throws (request : NextRequest) (e : exn) (w : world) :
  read_text request = inl e ->
  POST request w = (inr classification_error, logged e w).
Proof.
  unfold read_text, POST, try_catch, bind, lift. intros H.
  destruct (json request) as [e' | parsed].
  - injection H as ->. reflexivity.
  - rewrite H. reflexivity.
Qed.

(** The text is read but is not a non-empty string: 400, and nothing else
    happens. *)
Lemma POST_rejects (request : NextRequest) (t : value) (w : world) :
  read_text request = inr t -> valid_text t = false ->
  POST request w = (inr text_required, w).
Proof.
  unfold read_text, POST, try_catch, bind, lift. intros H Hv.
  destruct (json request) as [e' | parsed]; [discriminate H|].
  rewrite H, guard_valid_text, Hv. reflexivity.
Qed.

(** The text is a non-empty string: two draws, one second, 200. *)
Lemma POST_classifies (request : NextRequest) (t : value) (w : world) :
  read_text request = inr t -> valid_text t = true ->
  POST request w
  = (inr (prediction (random w (drawn w)) (random w (S (drawn w)))),
     classified w).
Proof.
  unfold read_text, POST, try_catch, bind, lift. intros H Hv.
  destruct (json request) as [e' | parsed]; [discriminate H|].
  rewrite H, guard_valid_text, Hv. reflexivity.
Qed.

Lemma valid_text_string (s : jsstring) :
  s <> [] -> valid_text (VString s) = true.
Proof. destruct s; [congruence | reflexivity]. Qed.

Lemma invalid_text_cases (t : value) :
  t = VString [] \/ typeof t <> TString -> valid_text t = false.
Proof.
  intros [-> | H]; [reflexivity|].
  destruct t; try reflexivity. exfalso; apply H; reflexivity.
Qed.

Lemma confidence_of_prediction (r1 r2 : number) :
  confidence_of (prediction r1 r2) = VNumber (add half (mul r2 half)).
Proof. reflexivity. Qed.

Lemma sentiment_of_prediction (r1 r2 : number) :
  sentiment_of (prediction r1 r2) = VString (label (gt r1 half)).
Proof. reflexivity. Qed.

Lemma world_with_ok (a b c d : number) :
  random_range a = true -> random_range b = true ->
  random_range c = true -> random_range d = true ->
  random_source_ok (world_with [a; b; c; d]).
Proof.
  intros Ha Hb Hc Hd [ | [ | [ | [ | [ | n]]]]]; cbn; auto.
Qed.

(** Comparisons of a result of [0.5 + r * 0.5] with [0], [0.5] and [1]. *)
Lemma compare_in_top_binade (m : positive) :
  2 ^ 52 <= Zpos m < 2 ^ 53 ->
  le zero (S754_finite false m (-53)) = true /\
  le half (S754_finite false m (-53)) = true /\
  lt (S754_finite false m (-53)) one = true /\
  le (S754_finite false m (-53)) one = true.
Proof.
  intros [Hlo _]. repeat split; try reflexivity.
  unfold le, half, SFleb, SFcompare. cbn [Z.compare Pos.compare Pos.compare_cont].
  rewrite Pos.compare_cont_spec. cbn [Pos.switch_Eq].
  destruct (Pos.compare_spec 4503599627370496 m) as [ | | Hgt]; try reflexivity.
  apply Pos2Z.pos_lt_pos in Hgt. change (2 ^ 52) with 4503599627370496 in Hlo.
  clear - Hlo Hgt. lia.
Qed.

Lemma confidence_bounds (r : number) :
  random_range r = true ->
  le zero (add half (mul r half)) = true /\
  le half (add half (mul r half)) = true /\
  le (add half (mul r half)) one = true /\
  (lt r pred_one = true -> lt (add half (mul r half)) one = true).
Proof.
  intros Hr.
  destruct (Binary64.confidence_cases r Hr) as [(m & -> & Hm) | [-> Hp]].
  - destruct (compare_in_top_binade m Hm) as (H0 & H1 & H2 & H3). auto.
  - rewrite Hp. repeat split; try reflexivity. discriminate.
Qed.

End RouteFacts.

(** ** The classify operation *)

Module Classify.
Import Route RouteFacts.

(** C1.  A request whose text is the empty string or is not a string
    (a number, a boolean, [null], an object, an array, or missing) is
    answered 400 "Le texte est requis", and the world is left as it was:
    no [Math.random] draw, no wait, nothing logged.  The simulated model is
    not run. *)
Theorem invalid_text_rejected (request : NextRequest) (t : value) (w : world) :
  read_text request = inr t ->
  t = VString [] \/ typeof t <> TString ->
  POST request w = (inr text_required, w) /\ status text_required = 400.
Proof.
  intros Hread Ht. split; [ | reflexivity].
  apply (POST_rejects request t w Hread), invalid_text_cases, Ht.
Qed.

(** [classify("")]: a validation error and no draw. *)
Lemma invalid_text_rejected_empty :
  POST (classify_request (VString [])) (world_with [half; half])
  = (inr text_required, world_with [half; half]) /\
  status text_required = 400.
Proof.
  apply (invalid_text_rejected _ (VString [])); [reflexivity | left; reflexivity].
Defined.

(** C2.  A call on a non-empty string succeeds with status 200 and a
    confidence between 0 and 1, both included. *)
Theorem confidence_in_unit_interval
    (request : NextRequest) (s : jsstring) (w : world) :
  random_source_ok w ->
  read_text request = inr (VString s) -> s <> [] ->
  exists (response : NextResponse) (w' : world) (c : number),
    POST request w = (inr response, w') /\
    status response = 200 /\
    confidence_of response = VNumber c /\
    le zero c = true /\ le c one = true.
Proof.
  intros Hw Hread Hs.
  pose proof (POST_classifies request _ w Hread (valid_text_string s Hs)) as E.
  destruct (confidence_bounds _ (Hw (S (drawn w)))) as (H0 & _ & H1 & _).
  eexists _, _, _. split; [exact E|]. split; [reflexivity|].
  split; [apply confidence_of_prediction|]. split; assumption.
Qed.

Lemma confidence_in_unit_interval_good :
  exists (response : NextResponse) (w' : world) (c : number),
    POST (classify_request (VString good)) (world_with [three_quarters; half; quarter; zero])
    = (inr response, w') /\
    status response = 200 /\
    confidence_of response = VNumber c /\
    le zero c = true /\ le c one = true.
Proof.
  apply (confidence_in_unit_interval _ good).
  - apply world_with_ok; reflexivity.
  - reflexivity.
  - discriminate.
Defined.

(** C3, as the claim states it, fails: the same text classified twice in a
    row gives two different predictions.  With the draws 0.75, 0.5, 0.25, 0
    the text [good] is first positive with confidence 0.75, then negative
    with confidence 0.5. *)
Lemma repeated_call_differs :
  (fst (POST (classify_request (VString good))
          (world_with [three_quarters; half; quarter; zero]))
   = inr (prediction three_quarters half) /\
   fst (POST (classify_request (VString good))
          (snd (POST (classify_request (VString good))
                  (world_with [three_quarters; half; quarter; zero]))))
   = inr (prediction quarter zero) /\
   sentiment_of (prediction three_quarters half) = VString (str "positive") /\
   sentiment_of (prediction quarter zero) = VString (str "negative") /\
   confidence_of (prediction three_quarters half) = VNumber three_quarters /\
   confidence_of (prediction quarter zero) = VNumber half) /\
  ~ (forall (request : NextRequest) (s : jsstring) (w1 w2 : world),
        random_source_ok w1 -> random_source_ok w2 ->
        read_text request = inr (VString s) -> s <> [] ->
        fst (POST request w1) = fst (POST request w2)).
Proof.
  split; [repeat split|].
  intros H.
  set (w := world_with [three_quarters; half; quarter; zero]).
  set (request := classify_request (VString good)).
  assert (Hw : random_source_ok w) by (apply world_with_ok; reflexivity).
  assert (Hw' : random_source_ok (snd (POST request w))) by exact Hw.
  specialize (H request good w _ Hw Hw' eq_refl ltac:(discriminate)).
  vm_compute in H. discriminate H.
Qed.

(** C3, amended.  The prediction is a function of the two [Math.random]
    results the call consumes: two calls on the same text answer alike
    whenever their two draws are equal. *)
Theorem prediction_determined_by_draws
    (request : NextRequest) (s : jsstring) (w1 w2 : world) :
  read_text request = inr (VString s) -> s <> [] ->
  random w1 (drawn w1) = random w2 (drawn w2) ->
  random w1 (S (drawn w1)) = random w2 (S (drawn w2)) ->
  fst (POST request w1) = fst (POST request w2).
Proof.
  intros Hread Hs E1 E2.
  rewrite !(POST_classifies request _ _ Hread (valid_text_string s Hs)).
  cbn [fst]. rewrite E1, E2. reflexivity.
Qed.

Lemma prediction_determined_by_draws_good :
  fst (POST (classify_request (VString good)) (world_with [quarter; half]))
  = fst (POST (classify_request (VString good))
           (snd (POST (classify_request (VString good))
                   (world_with [three_quarters; zero; quarter; half])))).
Proof.
  apply (prediction_determined_by_draws _ good); [reflexivity | discriminate | reflexivity | reflexivity].
Defined.

(** C4, as the claim states it, fails: no scoring function of the text
    gives the confidence, since one text gets two confidences: [good] gets
    0.5 when the second draw is 0 and 0.75 when it is 0.5. *)
Lemma confidence_is_not_a_score :
  (fst (POST (classify_request (VString good)) (world_with [half; zero; half; half]))
   = inr (prediction half zero) /\
   confidence_of (prediction half zero) = VNumber half /\
   fst (POST (classify_request (VString good)) (world_with [half; half; half; half]))
   = inr (prediction half half) /\
   confidence_of (prediction half half) = VNumber three_quarters) /\
  ~ (exists score : jsstring -> number,
        forall (request : NextRequest) (s : jsstring) (w : world),
          random_source_ok w ->
          read_text request = inr (VString s) -> s <> [] ->
          exists (response : NextResponse) (w' : world),
            POST request w = (inr response, w') /\
            confidence_of response = VNumber (score s)).
Proof.
  split; [repeat split|].
  intros [score H].
  set (request := classify_request (VString good)).
  assert (Hw1 : random_source_ok (world_with [half; zero; half; half]))
    by (apply world_with_ok; reflexivity).
  assert (Hw2 : random_source_ok (world_with [half; half; half; half]))
    by (apply world_with_ok; reflexivity).
  destruct (H request good _ Hw1 eq_refl ltac:(discriminate))
    as (r1 & w1 & E1 & C1).
  destruct (H request good _ Hw2 eq_refl ltac:(discriminate))
    as (r2 & w2 & E2 & C2).
  vm_compute in E1, E2.
  injection E1 as <- _. injection E2 as <- _.
  vm_compute in C1, C2. rewrite <- C1 in C2. discriminate C2.
Qed.

(** C4, amended.  The label is one of the two hard-coded strings
    [positive] and [negative], chosen by the first draw, and the confidence
    is [0.5 + r * 0.5] for the second draw [r]; neither looks at the text
    or at any artifact. *)
Theorem label_and_confidence_simulated
    (request : NextRequest) (s : jsstring) (w : world) :
  read_text request = inr (VString s) -> s <> [] ->
  exists (response : NextResponse) (w' : world),
    POST request w = (inr response, w') /\
    sentiment_of response
    = VString (if gt (random w (drawn w)) half
               then str "positive" else str "negative") /\
    confidence_of response
    = VNumber (add half (mul (random w (S (drawn w))) half)).
Proof.
  intros Hread Hs.
  eexists _, _. split.
  - exact (POST_classifies request _ w Hread (valid_text_string s Hs)).
  - split; reflexivity.
Qed.

Lemma label_and_confidence_simulated_good :
  exists (response : NextResponse) (w' : world),
    POST (classify_request (VString good)) (world_with [three_quarters; half])
    = (inr response, w') /\
    sentiment_of response
    = VString (if gt three_quarters half then str "positive" else str "negative") /\
    confidence_of response = VNumber (add half (mul half half)).
Proof.
  apply (label_and_confidence_simulated (classify_request (VString good)) good
           (world_with [three_quarters; half]) eq_refl).
  discriminate.
Defined.

(** C5.  The code breaks the claim: a body that is not JSON, for which
    [request.json()] throws a [SyntaxError], is answered with status 500,
    which is not a client error. *)
Lemma unparseable_body_not_client_error :
  (fst (POST {| json := inl SyntaxError |} (world_with []))
   = inr classification_error /\
   status classification_error = 500) /\
  ~ (forall (request : NextRequest) (e : exn) (w : world),
        json request = inl e ->
        exists (response : NextResponse) (w' : world),
          POST request w = (inr response, w') /\
          400 <= status response <= 499).
Proof.
  split; [split; reflexivity|].
  intros H.
  destruct (H {| json := inl SyntaxError |} SyntaxError (world_with []) eq_refl)
    as (response & w' & E & Hlo & Hhi).
  vm_compute in E. injection E as <- _. cbn in Hhi. lia.
Qed.

(** C5.  What the code does with a malformed body: when [request.json()]
    throws, the exception falls into the catch-all, is logged as a
    classification error and answered with status 500, a server error and
    not the client error the claim asks for; the guard that answers 400 is
    never reached, and no draw is made. *)
Theorem unparseable_body_server_error
    (request : NextRequest) (e : exn) (w : world) :
  json request = inl e ->
  POST request w = (inr classification_error, logged e w) /\
  status classification_error = 500 /\
  ~ (400 <= status classification_error <= 499).
Proof.
  intros Hjson. split; [ | split; [reflexivity | cbn; lia]].
  apply POST_throws. unfold read_text. rewrite Hjson. reflexivity.
Qed.

Lemma unparseable_body_server_error_syntax :
  POST {| json := inl SyntaxError |} (world_with [])
  = (inr classification_error, logged SyntaxError (world_with [])) /\
  status classification_error = 500 /\
  ~ (400 <= status classification_error <= 499).
Proof.
  apply (unparseable_body_server_error {| json := inl SyntaxError |} SyntaxError).
  reflexivity.
Defined.

(** C6.  The handler is total: whatever the request and the world, it
    returns a response; no exception leaves it. *)
Theorem POST_total (request : NextRequest) (w : world) :
  exists (response : NextResponse) (w' : world),
    POST request w = (inr response, w').
Proof.
  destruct (read_text request) as [e | t] eqn:Hread.
  - eexists _, _. apply (POST_throws request e w Hread).
  - destruct (valid_text t) eqn:Hv.
    + eexists _, _. apply (POST_classifies request t w Hread Hv).
    + eexists _, _. apply (POST_rejects request t w Hread Hv).
Qed.

(** A request that is turned down, with 400 or with 500, takes nothing
    from [Math.random]: the requests that follow are answered as if it had
    never come. *)
Lemma refused_request_leaves_no_trace
    (request other : NextRequest) (w : world) :
  (forall t, read_text request = inr t -> valid_text t = false) ->
  fst (POST other (snd (POST request w))) = fst (POST other w).
Proof.
  intros Hbad.
  assert (Hw : random (snd (POST request w)) = random w /\
               drawn (snd (POST request w)) = drawn w).
  { destruct (read_text request) as [e | t] eqn:Hread.
    - rewrite (POST_throws request e w Hread). split; reflexivity.
    - rewrite (POST_rejects request t w Hread (Hbad t eq_refl)).
      split; reflexivity. }
  destruct Hw as [Hr Hd]. set (w' := snd (POST request w)) in *.
  destruct (read_text other) as [e | t] eqn:Hread.
  - rewrite !(POST_throws other e _ Hread). reflexivity.
  - destruct (valid_text t) eqn:Hv.
    + rewrite !(POST_classifies other t _ Hread Hv). cbn [fst].
      rewrite Hr, Hd. reflexivity.
    + rewrite !(POST_rejects other t _ Hread Hv). reflexivity.
Qed.

(** C8.  The text has no influence on the outcome: two requests with valid
    texts whose calls get the same two draws are given the same response,
    label and confidence included, whatever the two texts are. *)
Theorem prediction_independent_of_text
    (request1 request2 : NextRequest) (s1 s2 : jsstring) (w1 w2 : world) :
  read_text request1 = inr (VString s1) -> s1 <> [] ->
  read_text request2 = inr (VString s2) -> s2 <> [] ->
  random w1 (drawn w1) = random w2 (drawn w2) ->
  random w1 (S (drawn w1)) = random w2 (S (drawn w2)) ->
  exists response : NextResponse,
    fst (POST request1 w1) = inr response /\
    fst (POST request2 w2) = inr response /\
    sentiment_of response = VString (label (gt (random w1 (drawn w1)) half)) /\
    confidence_of response
    = VNumber (add half (mul (random w1 (S (drawn w1))) half)).
Proof.
  intros H1 Hs1 H2 Hs2 E1 E2.
  rewrite (POST_classifies request1 _ w1 H1 (valid_text_string s1 Hs1)).
  rewrite (POST_classifies request2 _ w2 H2 (valid_text_string s2 Hs2)).
  rewrite <- E1, <- E2. eexists. repeat split.
Qed.

Lemma prediction_independent_of_text_good_bad :
  exists response : NextResponse,
    fst (POST (classify_request (VString good)) (world_with [quarter; half]))
    = inr response /\
    fst (POST (classify_request (VString (str "bad"))) (world_with [quarter; half]))
    = inr response /\
    sentiment_of response = VString (label (gt quarter half)) /\
    confidence_of response = VNumber (add half (mul half half)).
Proof.
  apply (prediction_independent_of_text
           (classify_request (VString good)) (classify_request (VString (str "bad")))
           good (str "bad") (world_with [quarter; half]) (world_with [quarter; half]));
    [reflexivity | discriminate | reflexivity | discriminate
    | reflexivity | reflexivity].
Defined.

(** C9, as the claim states it, fails: when [Math.random] gives the largest
    number below 1, which is in its range, the exact sum [1 - 2^-54] lies
    half way between two binary64 numbers and [0.5 + r * 0.5] is rounded to
    the even one, 1. *)
Lemma confidence_can_be_one :
  (random_range pred_one = true /\
   mul pred_one half = S754_finite false 9007199254740991 (-54) /\
   fst (POST (classify_request (VString good))
          (world_with [half; pred_one; half; half]))
   = inr (prediction half pred_one) /\
   confidence_of (prediction half pred_one) = VNumber one /\
   lt one one = false) /\
  ~ (forall (request : NextRequest) (s : jsstring) (w : world),
        random_source_ok w ->
        read_text request = inr (VString s) -> s <> [] ->
        exists (response : NextResponse) (w' : world) (c : number),
          POST request w = (inr response, w') /\
          confidence_of response = VNumber c /\
          le half c = true /\ lt c one = true).
Proof.
  split; [repeat split|].
  intros H.
  assert (Hw : random_source_ok (world_with [half; pred_one; half; half]))
    by (apply world_with_ok; reflexivity).
  destruct (H (classify_request (VString good)) good _ Hw eq_refl ltac:(discriminate))
    as (response & w' & c & E & Hc & _ & Hlt).
  vm_compute in E. injection E as <- _.
  vm_compute in Hc. injection Hc as <-.
  vm_compute in Hlt. discriminate Hlt.
Qed.

(** C9, amended.  The confidence of a successful call is at least 0.5 and
    at most 1, and it is below 1 whenever the draw is below the largest
    number under 1. *)
Theorem confidence_at_least_half
    (request : NextRequest) (s : jsstring) (w : world) :
  random_source_ok w ->
  read_text request = inr (VString s) -> s <> [] ->
  exists (response : NextResponse) (w' : world) (c : number),
    POST request w = (inr response, w') /\
    confidence_of response = VNumber c /\
    le half c = true /\ le c one = true /\
    (lt (random w (S (drawn w))) pred_one = true -> lt c one = true).
Proof.
  intros Hw Hread Hs.
  pose proof (POST_classifies request _ w Hread (valid_text_string s Hs)) as E.
  destruct (confidence_bounds _ (Hw (S (drawn w)))) as (_ & H0 & H1 & H2).
  eexists _, _, _. split; [exact E|].
  split; [apply confidence_of_prediction|]. auto.
Qed.

Lemma confidence_at_least_half_good :
  exists (response : NextResponse) (w' : world) (c : number),
    POST (classify_request (VString good)) (world_with [quarter; three_quarters; half; half])
    = (inr response, w') /\
    confidence_of response = VNumber c /\
    le half c = true /\ le c one = true /\
    (lt three_quarters pred_one = true -> lt c one = true).
Proof.
  apply (confidence_at_least_half (classify_request (VString good)) good
           (world_with [quarter; three_quarters; half; half])).
  - apply world_with_ok; reflexivity.
  - reflexivity.
  - discriminate.
Defined.

End Classify.

(** ** The page *)

Module PageFacts.
Import Page.

Lemma trimStart_nil (s : jsstring) :
  trimStart s = [] <-> forallb is_white_space s = true.
Proof.
  induction s as [ | c s IH]; cbn [trimStart forallb].
  - split; reflexivity.
  - destruct (is_white_space c); cbn [andb]; [exact IH|].
    split; discriminate.
Qed.

(** What [trimStart] leaves starts with a character that is not white
    space, unless nothing is left. *)
Lemma trimStart_blank (s : jsstring) :
  forallb is_white_space (trimStart s) = true -> trimStart s = [].
Proof.
  induction s as [ | c s IH]; cbn [trimStart]; [reflexivity|].
  destruct (is_white_space c) eqn:Hc; [exact IH|].
  cbn [forallb]. rewrite Hc. discriminate.
Qed.

Lemma forallb_rev {A} (f : A -> bool) (l : list A) :
  forallb f (rev l) = forallb f l.
Proof.
  induction l as [ | a l IH]; [reflexivity|].
  cbn [rev forallb]. rewrite forallb_app, IH. cbn [forallb].
  rewrite andb_true_r. apply andb_comm.
Qed.

Lemma rev_nil_iff {A} (l : list A) : rev l = [] <-> l = [].
Proof.
  split; [ | intros ->; reflexivity].
  intros H. rewrite <- (rev_involutive l), H. reflexivity.
Qed.

(** [text.trim()] is empty exactly when [text] is blank. *)
Lemma trim_nil (s : jsstring) :
  trim s = [] <-> forallb is_white_space s = true.
Proof.
  unfold trim, trimEnd. split.
  - intros H. apply rev_nil_iff, trimStart_nil in H. rewrite forallb_rev in H.
    apply trimStart_nil, trimStart_blank, H.
  - intros H. apply trimStart_nil in H. rewrite H. reflexivity.
Qed.

Lemma truthy_trim (s : jsstring) :
  truthy (VString (trim s)) = negb (forallb is_white_space s).
Proof.
  destruct (forallb is_white_space s) eqn:Hb.
  - apply trim_nil in Hb. rewrite Hb. reflexivity.
  - destruct (trim s) eqn:Ht; [ | reflexivity].
    apply trim_nil in Ht. congruence.
Qed.

(** A blank text: the error is set and nothing else happens; in particular
    no request is sent. *)
Lemma classifyText_blank (b : browser) :
  forallb is_white_space (text (home b)) = true ->
  classifyText b = (inr tt, with_error (Some msg_enter_text) b).
Proof.
  intros Hb. unfold classifyText. rewrite truthy_trim, Hb. reflexivity.
Qed.

(** Any other text: one request is sent, and the [error] cell tells whether
    it failed. *)
Lemma classifyText_sends (b : browser) :
  forallb is_white_space (text (home b)) = false ->
  exists b' : browser,
    classifyText b = (inr tt, b') /\
    sent b' = sent b ++ [(str "/api/classify", classify_init (text (home b)))] /\
    loading (home b') = false /\
    error (home b') = option_map message_of (failure_of b).
Proof.
  intros Hb. unfold classifyText, failure_of. rewrite truthy_trim, Hb.
  cbn [negb].
  unfold try_finally, try_catch, bind, fetch, setLoading, setError,
    setPrediction, with_home, console_error, throw, ret, lift.
  cbn [home network sent console text prediction loading error].
  destruct (network b _ _) as [e | [[ | ] [e | data]]];
    cbn [ok json negb]; eexists; repeat split.
Qed.

End PageFacts.

Module Client.
Import Page PageFacts.

Lemma messages_differ : msg_enter_text <> msg_classification_failed.
Proof. intros H. vm_compute in H. discriminate H. Qed.

(** The [error] cell after a click: every failure of [classifyText] puts a
    message of its own in it, the blank-text message for a validation error,
    the classification-failed message for a rejected request, a response
    that is not OK or an unreadable response body; the two messages differ,
    and without failure the cell is cleared. *)
Theorem failures_shown_distinctly (b : browser) :
  exists b' : browser,
    classifyText b = (inr tt, b') /\
    error (home b') = option_map message_of (failure_of b) /\
    message_of ValidationError <> message_of ServiceUnavailable.
Proof.
  destruct (forallb is_white_space (text (home b))) eqn:Hb.
  - exists (with_error (Some msg_enter_text) b).
    split; [apply classifyText_blank, Hb|].
    split; [ | exact messages_differ].
    unfold failure_of. rewrite Hb. reflexivity.
  - destruct (classifyText_sends b Hb) as (b' & E & _ & _ & Herr).
    exists b'. split; [exact E|]. split; [exact Herr | exact messages_differ].
Qed.

(** With the route handler behind the network, a text that is not blank
    always comes back as a prediction: the handler's 400 never reaches the
    page. *)
Lemma page_gets_prediction (b : browser) (w : Route.world) :
  network b = served_by w ->
  forallb is_white_space (text (home b)) = false ->
  failure_of b = None.
Proof.
  intros Hn Hb. unfold failure_of. rewrite Hb, Hn. unfold served_by.
  assert (Hs : text (home b) <> []) by (intros E; rewrite E in Hb; discriminate Hb).
  rewrite (RouteFacts.POST_classifies
             {| Route.json := inr (body (classify_init (text (home b)))) |}
             (VString (text (home b))) w eq_refl
             (RouteFacts.valid_text_string _ Hs)).
  reflexivity.
Qed.

(** C10.  A text that is not empty but blank is classified by the handler
    like any other string: status 200 and a prediction.  The page, given the
    same text, shows the validation message and sends nothing. *)
Theorem blank_text_classified_by_server
    (request : Route.NextRequest) (s : jsstring) (w : Route.world) (b : browser) :
  s <> [] -> forallb is_white_space s = true ->
  Route.read_text request = inr (VString s) ->
  text (home b) = s ->
  exists response : Route.NextResponse,
    Route.POST request w = (inr response, Route.classified w) /\
    Route.status response = 200 /\
    Route.sentiment_of response
    = VString (Route.label (gt (Route.random w (Route.drawn w)) half)) /\
    classifyText b = (inr tt, with_error (Some msg_enter_text) b) /\
    sent (with_error (Some msg_enter_text) b) = sent b.
Proof.
  intros Hs Hblank Hread Htext.
  eexists. split.
  - exact (RouteFacts.POST_classifies request _ w Hread
             (RouteFacts.valid_text_string s Hs)).
  - repeat split. apply classifyText_blank. rewrite Htext. exact Hblank.
Qed.

Lemma blank_text_classified_by_server_space :
  exists response : Route.NextResponse,
    Route.POST (Route.classify_request (VString (str " ")))
      (world_with [three_quarters; half])
    = (inr response, Route.classified (world_with [three_quarters; half])) /\
    Route.status response = 200 /\
    Route.sentiment_of response = VString (Route.label (gt three_quarters half)) /\
    classifyText (page_with (str " ") (served_by (world_with [three_quarters; half])))
    = (inr tt,
       with_error (Some msg_enter_text)
         (page_with (str " ") (served_by (world_with [three_quarters; half])))) /\
    sent (with_error (Some msg_enter_text)
            (page_with (str " ") (served_by (world_with [three_quarters; half]))))
    = sent (page_with (str " ") (served_by (world_with [three_quarters; half]))).
Proof.
  apply (blank_text_classified_by_server
           (Route.classify_request (VString (str " "))) (str " ")
           (world_with [three_quarters; half])
           (page_with (str " ") (served_by (world_with [three_quarters; half]))));
    [discriminate | reflexivity | reflexivity | reflexivity].
Defined.

End Client.

(** ** The handler's answers, by request *)

Module Answers.
Import Route RouteFacts Serving.

Lemma accepted_read (request : NextRequest) :
  accepted request = true ->
  exists t, read_text request = inr t /\ valid_text t = true.
Proof.
  unfold accepted. destruct (read_text request) as [e | t]; [discriminate|].
  intros Hv. exists t. split; [reflexivity | exact Hv].
Qed.

(** X1.  Every request is answered with status 200, 400 or 500: 200 exactly
    when its text is read and is a non-empty string, 500 exactly when
    reading the text throws, 400 in between.  A 200 body has [sentiment], a
    string, and [confidence], a number, and no [error]; a 400 or 500 body
    has [error], a string, and neither of the other two. *)
Theorem status_characterisation (request : NextRequest) (w : world) :
  exists (response : NextResponse) (w' : world),
    POST request w = (inr response, w') /\
    (status response = 200 \/ status response = 400 \/ status response = 500) /\
    (status response = 200 <-> accepted request = true) /\
    (status response = 500 <-> exists e, read_text request = inl e) /\
    (status response = 200 ->
       error_of response = VUndefined /\
       typeof (sentiment_of response) = TString /\
       typeof (confidence_of response) = TNumber) /\
    (status response <> 200 ->
       typeof (error_of response) = TString /\
       sentiment_of response = VUndefined /\
       confidence_of response = VUndefined).
Proof.
  unfold accepted.
  destruct (read_text request) as [e | t] eqn:Hread;
    [ | destruct (valid_text t) eqn:Hv ].
  - exists classification_error, (logged e w).
    split; [exact (POST_throws request e w Hread)|].
    cbn [status classification_error].
    split; [right; right; reflexivity|].
    split; [split; discriminate|].
    split; [split; [intros _; exists e; reflexivity | reflexivity]|].
    split; [discriminate|].
    intros _. repeat split.
  - eexists _, _. split; [exact (POST_classifies request t w Hread Hv)|].
    cbn [status prediction].
    split; [left; reflexivity|].
    split; [split; reflexivity|].
    split; [split; [discriminate | intros [e He]; discriminate He]|].
    split; [ | intros H; exfalso; apply H; reflexivity].
    intros _. split; [reflexivity|]. split; [ | reflexivity].
    unfold sentiment_of, prediction, label. cbn [body].
    destruct (gt (random w (drawn w)) half); reflexivity.
  - exists text_required, w.
    split; [exact (POST_rejects request t w Hread Hv)|].
    cbn [status text_required].
    split; [right; left; reflexivity|].
    split; [split; discriminate|].
    split; [split; [discriminate | intros [e He]; discriminate He]|].
    split; [discriminate|].
    intros _. repeat split.
Qed.

(** X2.  A JSON body that is not an object has no [text]: a number, a
    boolean, an array and even a non-empty string are answered 400 without
    any draw, while [null], which cannot be destructured, is answered 500
    and a [TypeError] is logged. *)
Theorem body_without_members (v : value) (w : world) :
  (forall props, v <> VObject props) ->
  POST {| json := inr v |} w
  = match v with
    | VNull | VUndefined => (inr classification_error, logged TypeError w)
    | _ => (inr text_required, w)
    end.
Proof.
  intros Hv. destruct v as [ | | b | n | s | xs | props].
  - apply POST_throws. reflexivity.
  - apply POST_throws. reflexivity.
  - apply (POST_rejects _ VUndefined); reflexivity.
  - apply (POST_rejects _ VUndefined); reflexivity.
  - apply (POST_rejects _ VUndefined); reflexivity.
  - apply (POST_rejects _ VUndefined); reflexivity.
  - exfalso. apply (Hv props). reflexivity.
Qed.

Lemma body_without_members_string :
  POST {| json := inr (VString good) |} (world_with [half; half])
  = (inr text_required, world_with [half; half]).
Proof.
  apply (body_without_members (VString good) (world_with [half; half])).
  intros props; discriminate.
Defined.

(** X3.  What a call costs: a classified request takes exactly two results
    from [Math.random] and waits one second; a refused one takes none and
    does not wait.  The console gets one entry when the answer is 500 and
    none otherwise, and the random source itself is never changed. *)
Theorem effects_by_status (request : NextRequest) (w : world) :
  exists (response : NextResponse) (w' : world),
    POST request w = (inr response, w') /\
    random w' = random w /\
    drawn w' = ((if accepted request then 2 else 0) + drawn w)%nat /\
    slept w' = slept w + (if accepted request then 1000 else 0) /\
    List.length (console w')
    = (List.length (console w) + (if (status response =? 500)%Z then 1 else 0))%nat.
Proof.
  unfold accepted.
  destruct (read_text request) as [e | t] eqn:Hread;
    [ | destruct (valid_text t) eqn:Hv ].
  - exists classification_error, (logged e w).
    split; [exact (POST_throws request e w Hread)|].
    cbn [random drawn slept console logged status classification_error Z.eqb Pos.eqb].
    repeat split; try lia. rewrite length_app. reflexivity.
  - eexists _, _. split; [exact (POST_classifies request t w Hread Hv)|].
    cbn [random drawn slept console classified status prediction Z.eqb Pos.eqb].
    repeat split; lia.
  - exists text_required, w.
    split; [exact (POST_rejects request t w Hread Hv)|].
    cbn [status text_required Z.eqb Pos.eqb].
    repeat split; lia.
Qed.

(** *** Requests in a row *)

Lemma serve_all_cons (request : NextRequest) (rest : list NextRequest) (w : world) :
  serve_all (request :: rest) w
  = match POST request w with
    | (inr response, w') =>
        match serve_all rest w' with
        | (inr responses, w'') => (inr (response :: responses), w'')
        | (inl e, w'') => (inl e, w'')
        end
    | (inl e, w') => (inl e, w')
    end.
Proof.
  cbn [serve_all]. unfold bind, ret.
  destruct (POST request w) as [[e | response] w']; [reflexivity|].
  destruct (serve_all rest w') as [[e | responses] w'']; reflexivity.
Qed.

(** Serving a list never throws and gives one response per request. *)
Lemma serve_all_total (requests : list NextRequest) (w : world) :
  exists (responses : list NextResponse) (w' : world),
    serve_all requests w = (inr responses, w') /\
    List.length responses = List.length requests.
Proof.
  revert w. induction requests as [ | request rest IH]; intros w.
  - exists [], w. split; reflexivity.
  - rewrite serve_all_cons.
    assert (E : exists response w1, POST request w = (inr response, w1)).
    { destruct (read_text request) as [e | t] eqn:Hread;
        [ | destruct (valid_text t) eqn:Hv ]; eexists _, _.
      - exact (POST_throws request e w Hread).
      - exact (POST_classifies request t w Hread Hv).
      - exact (POST_rejects request t w Hread Hv). }
    destruct E as (response & w1 & E). rewrite E.
    destruct (IH w1) as (responses & w2 & E2 & Hlen). rewrite E2.
    exists (response :: responses), w2. split; [reflexivity|].
    cbn [List.length]. rewrite Hlen. reflexivity.
Qed.

Lemma POST_refused (request : NextRequest) (w : world) :
  accepted request = false ->
  exists (response : NextResponse) (w' : world),
    POST request w = (inr response, w') /\
    succeeded response = false /\
    random w' = random w /\ drawn w' = drawn w.
Proof.
  unfold accepted. intros Ha.
  destruct (read_text request) as [e | t] eqn:Hread.
  - exists classification_error, (logged e w).
    split; [exact (POST_throws request e w Hread)|]. repeat split.
  - exists text_required, w.
    split; [exact (POST_rejects request t w Hread Ha)|]. repeat split.
Qed.

Lemma POST_accepted (request : NextRequest) (w : world) :
  accepted request = true ->
  POST request w
  = (inr (prediction (random w (drawn w)) (random w (S (drawn w)))), classified w).
Proof.
  intros Ha. destruct (accepted_read request Ha) as (t & Hread & Hv).
  exact (POST_classifies request t w Hread Hv).
Qed.

Lemma serve_all_filter (requests : list NextRequest) (w1 w2 : world) :
  same_draws w1 w2 ->
  exists (responses : list NextResponse) (w1' : world)
         (kept : list NextResponse) (w2' : world),
    serve_all requests w1 = (inr responses, w1') /\
    serve_all (filter accepted requests) w2 = (inr kept, w2') /\
    filter succeeded responses = kept /\
    same_draws w1' w2' /\
    drawn w1' = (2 * List.length (filter accepted requests) + drawn w1)%nat.
Proof.
  revert w1 w2. induction requests as [ | request rest IH]; intros w1 w2 Hs.
  - exists [], w1, [], w2. repeat split; try apply Hs. 
  - cbn [filter]. rewrite serve_all_cons.
    destruct (accepted request) eqn:Ha.
    + rewrite serve_all_cons, !(POST_accepted request _ Ha).
      assert (Hs' : same_draws (classified w1) (classified w2)).
      { destruct Hs as [Hr Hd]. split; cbn; congruence. }
      destruct (IH _ _ Hs') as (responses & w1' & kept & w2' & E1 & E2 & Hf & Hd' & Hn).
      rewrite E1, E2. destruct Hs as [Hr Hd]. rewrite <- Hr, <- Hd.
      eexists _, _, _, _. split; [reflexivity|]. split; [reflexivity|].
      split; [cbn; rewrite Hf; reflexivity|]. split; [exact Hd'|].
      rewrite Hn. cbn [classified drawn List.length]. lia.
    + destruct (POST_refused request w1 Ha) as (response & w' & E & Hf & Hr & Hd).
      rewrite E.
      assert (Hs' : same_draws w' w2).
      { destruct Hs as [Hr2 Hd2]. split; congruence. }
      destruct (IH _ _ Hs') as (responses & w1' & kept & w2' & E1 & E2 & Hf' & Hd' & Hn).
      rewrite E1. eexists _, _, _, _. split; [reflexivity|]. split; [exact E2|].
      split; [cbn [filter]; rewrite Hf; exact Hf'|]. split; [exact Hd'|].
      rewrite Hn, Hd. reflexivity.
Qed.

(** X4.  Requests handled one after another: the refused ones (400 or 500)
    are invisible to the others.  The successful responses of a run are
    those the accepted requests would get if served alone, in the same
    order, and the run takes two draws per accepted request. *)
Theorem refused_requests_invisible (requests : list NextRequest) (w : world) :
  exists (responses : list NextResponse) (w' : world)
         (kept : list NextResponse) (w'' : world),
    serve_all requests w = (inr responses, w') /\
    serve_all (filter accepted requests) w = (inr kept, w'') /\
    List.length responses = List.length requests /\
    filter succeeded responses = kept /\
    drawn w' = drawn w'' /\
    drawn w' = (2 * List.length (filter accepted requests) + drawn w)%nat.
Proof.
  destruct (serve_all_filter requests w w (conj eq_refl eq_refl))
    as (responses & w' & kept & w'' & E1 & E2 & Hf & [_ Hd] & Hn).
  destruct (serve_all_total requests w) as (responses' & w2 & E & Hlen).
  rewrite E1 in E. injection E as <- <-.
  exists responses, w', kept, w''. repeat split; assumption.
Qed.

End Answers.

(** ** A click on the button, path by path *)

Module Clicks.
Import Page PageFacts Typing.

(** The state [classifyText] ends in when the text is not blank, by what
    the network answers. *)
Lemma classifyText_request (b : browser) :
  forallb is_white_space (text (home b)) = false ->
  classifyText b
  = (inr tt,
     match network b (str "/api/classify") (classify_init (text (home b))) with
     | inl e => failed e b
     | inr response =>
         if ok response then
           match json response with
           | inl e => failed e b
           | inr data => stored data b
           end
         else failed (Error (str "Erreur lors de la classification")) b
     end).
Proof.
  intros Hb. unfold classifyText. rewrite truthy_trim, Hb. cbn [negb].
  unfold try_finally, try_catch, bind, fetch, setLoading, setError,
    setPrediction, with_home, console_error, throw, ret, lift, failed, stored.
  cbn [home network sent console text prediction loading error].
  destruct (network b _ _) as [e | [[ | ] [e | data]]];
    cbn [ok json negb]; reflexivity.
Qed.

(** X5.  A click never throws, never changes the text or the network, and
    sends a request exactly when the text is not blank: then one request,
    to [/api/classify], and [loading] is false at the end whatever came
    back; a blank text leaves [loading] as it was. *)
Theorem classifyText_frame (b : browser) :
  exists b' : browser,
    classifyText b = (inr tt, b') /\
    text (home b') = text (home b) /\
    network b' = network b /\
    sent b'
    = sent b ++
      (if forallb is_white_space (text (home b)) then []
       else [(str "/api/classify", classify_init (text (home b)))]) /\
    loading (home b')
    = (if forallb is_white_space (text (home b)) then loading (home b) else false).
Proof.
  destruct (forallb is_white_space (text (home b))) eqn:Hb.
  - exists (with_error (Some msg_enter_text) b).
    split; [exact (classifyText_blank b Hb)|].
    cbn [with_error home text network sent loading]. rewrite app_nil_r.
    repeat split.
  - eexists. split; [exact (classifyText_request b Hb)|].
    destruct (network b _ _) as [e | [[ | ] [e | data]]]; cbn [ok json];
      repeat split.
Qed.



(** X7.  The prediction cell is written only by a successful request, and
    then with the response body as it is; a validation error or a failed
    request leaves the prediction shown before in place, next to the error
    message. *)
Theorem prediction_kept_on_failure (b : browser) :
  exists b' : browser,
    classifyText b = (inr tt, b') /\
    match failure_of b with
    | Some f =>
        prediction (home b') = prediction (home b) /\
        error (home b') = Some (message_of f)
    | None =>
        exists (response : Response) (data : value),
          network b (str "/api/classify") (classify_init (text (home b)))
          = inr response /\
          json response = inr data /\
          prediction (home b') = data /\ error (home b') = None
    end.
Proof.
  unfold failure_of.
  destruct (forallb is_white_space (text (home b))) eqn:Hb.
  - exists (with_error (Some msg_enter_text) b).
    split; [exact (classifyText_blank b Hb)|]. split; reflexivity.
  - eexists. split; [exact (classifyText_request b Hb)|].
    destruct (network b _ _) as [e | [[ | ] [e | data]]]; cbn [ok json];
      try (split; reflexivity).
    eexists _, data. repeat split.
Qed.

(** X8.  The body of a response that is not OK is never read: whatever the
    service put in it, the page ends in the same state, with the general
    failure message, and the console gets the [Error] thrown by
    [classifyText] itself. *)
Theorem refusal_body_not_read (b : browser) (response : Response) :
  forallb is_white_space (text (home b)) = false ->
  network b (str "/api/classify") (classify_init (text (home b))) = inr response ->
  ok response = false ->
  classifyText b
  = (inr tt, failed (Error (str "Erreur lors de la classification")) b).
Proof.
  intros Hb Hn Hok. rewrite (classifyText_request b Hb), Hn, Hok. reflexivity.
Qed.

Lemma refusal_body_not_read_400 :
  classifyText
    (page_with good
       (fun _ _ => inr {| ok := false; json := inr (Route.body Route.text_required) |}))
  = (inr tt,
     failed (Error (str "Erreur lors de la classification"))
       (page_with good
          (fun _ _ => inr {| ok := false; json := inr (Route.body Route.text_required) |}))).
Proof.
  apply (refusal_body_not_read
           (page_with good
              (fun _ _ => inr {| ok := false; json := inr (Route.body Route.text_required) |}))
           {| ok := false; json := inr (Route.body Route.text_required) |});
    reflexivity.
Defined.

(** X9.  The page and the handler together: when the network is the route
    handler, a click with a text that is not blank always ends with the
    handler's prediction object in the prediction cell, no error and
    [loading] false. *)
Theorem classified_through_handler (b : browser) (w : Route.world) :
  network b = served_by w ->
  forallb is_white_space (text (home b)) = false ->
  classifyText b
  = (inr tt,
     stored (Route.body (Route.prediction
                           (Route.random w (Route.drawn w))
                           (Route.random w (S (Route.drawn w))))) b).
Proof.
  intros Hn Hb. rewrite (classifyText_request b Hb), Hn. unfold served_by.
  assert (Hs : text (home b) <> []) by (intros E; rewrite E in Hb; discriminate Hb).
  rewrite (RouteFacts.POST_classifies
             {| Route.json := inr (body (classify_init (text (home b)))) |}
             (VString (text (home b))) w eq_refl
             (RouteFacts.valid_text_string _ Hs)).
  reflexivity.
Qed.

Lemma classified_through_handler_good :
  classifyText (page_with good (served_by (world_with [three_quarters; half])))
  = (inr tt,
     stored (Route.body (Route.prediction three_quarters half))
       (page_with good (served_by (world_with [three_quarters; half])))).
Proof.
  apply (classified_through_handler
           (page_with good (served_by (world_with [three_quarters; half])))
           (world_with [three_quarters; half])); reflexivity.
Defined.

End Clicks.

(** ** The confidence as a percentage *)

Module DisplayFacts.
Import Display Binary64.

(** A rounded mantissa of 53 bits is kept; [2^53] moves to the next
    exponent. *)
Lemma renormalize_carry (m1 e1 : Z) :
  2 ^ 52 <= m1 <= 2 ^ 53 -> -1074 <= e1 <= 970 ->
  exists (m : positive) (e : Z),
    renormalize false m1 e1 = S754_finite false m e /\
    ((e = e1 /\ Zpos m = m1) \/ (e = e1 + 1 /\ Zpos m = 2 ^ 52 /\ m1 = 2 ^ 53)).
Proof.
  intros [Hlo Hhi] He.
  destruct (Z.eq_dec m1 (2 ^ 53)) as [-> | NE].
  - exists 4503599627370496%positive, (e1 + 1). split; [ | right; repeat split].
    unfold renormalize, shr_fexp.
    change (Zdigits2 (2 ^ 53)) with 54.
    replace (fexp 53 1024 (54 + e1) - e1) with 1 by (clear - He; fexp_lia).
    cbn [shr_record_of_loc shr iter_pos shr_1 shr_m Z.pow Z.pow_pos Pos.iter Z.mul Pos.mul].
    replace (e1 + 1 <=? 1024 - 53) with true by (symmetry; apply Z.leb_le; lia).
    reflexivity.
  - destruct m1 as [ | m | m];
      try (exfalso; change (2 ^ 52) with 4503599627370496 in Hlo; lia).
    exists m, e1. split; [ | left; split; reflexivity].
    apply renormalize_canonical; [ | lia].
    assert (Hd : Zpos (digits2_pos m) = 53).
    { apply digits2_pos_unique. change (53 - 1) with 52. lia. }
    rewrite Hd. clear - He. fexp_lia.
Qed.

(** [c * 100] for [c] in the binade of [0.5]: a number between 50 and 100,
    both included. *)
Lemma mul_hundred_binade (m : positive) :
  2 ^ 52 <= Zpos m < 2 ^ 53 ->
  exists (m' : positive) (e' : Z),
    mul (S754_finite false m (-53)) hundred = S754_finite false m' e' /\
    e' < 0 /\
    50 * 2 ^ (- e') <= Zpos m' <= 100 * 2 ^ (- e').
Proof.
  intros [Hlo Hhi]. unfold mul, JS.prec, JS.emax, hundred, SFmul. cbn [xorb].
  set (P := (m * 7036874417766400)%positive).
  assert (HP : Zpos P = Zpos m * 25 * 2 ^ 48).
  { unfold P. rewrite Pos2Z.inj_mul. change (Zpos 7036874417766400) with (25 * 2 ^ 48). ring. }
  change (-53 + -46) with (-99).
  change (2 ^ 52) with 4503599627370496 in Hlo.
  change (2 ^ 53) with 9007199254740992 in Hhi.
  destruct (Z_lt_le_dec (Zpos m * 25) (2 ^ 57)) as [Hs | Hl].
  - assert (Hd : Zpos (digits2_pos P) = 105).
    { apply digits2_pos_unique. rewrite HP.
      change (2 ^ (105 - 1)) with (2 ^ 56 * 2 ^ 48).
      change (2 ^ 105) with (2 ^ 57 * 2 ^ 48).
      change (2 ^ 56) with 72057594037927936.
      change (2 ^ 57) with 144115188075855872 in *. clear - Hlo Hs.
      assert (0 < 2 ^ 48) by (apply Z.pow_pos_nonneg; lia). nia. }
    rewrite (binary_round_aux_shift _ _ _ 52).
    2:{ rewrite Hd. clear. fexp_lia. }
    change (-99 + 52) with (-47).
    pose proof (shift_round_bounds (Zpos P) 52 ltac:(lia)) as Hb.
    assert (Hq : Zpos P / 2 ^ 52 = Zpos m * 25 / 16).
    { rewrite HP. change (2 ^ 52) with (16 * 2 ^ 48).
      rewrite Z.div_mul_cancel_r by lia. reflexivity. }
    rewrite Hq in Hb.
    assert (Hq1 : 25 * 2 ^ 48 <= Zpos m * 25 / 16).
    { apply Z.div_le_lower_bound; [lia|]. change (2 ^ 48) with 281474976710656. lia. }
    assert (Hq2 : Zpos m * 25 / 16 < 2 ^ 53).
    { apply Z.div_lt_upper_bound; [lia|].
      change (2 ^ 57) with 144115188075855872 in Hs.
      change (2 ^ 53) with 9007199254740992. lia. }
    destruct (renormalize_carry (shift_round (Zpos P) 52) (-47)) as (m' & e' & E & Hc).
    { change (2 ^ 48) with 281474976710656 in Hq1.
      change (2 ^ 52) with 4503599627370496. lia. }
    { lia. }
    exists m', e'. split; [exact E|].
    destruct Hc as [[-> Hm] | (-> & Hm & _)].
    + split; [lia|]. rewrite Hm. change (- -47) with 47.
      change (2 ^ 47) with 140737488355328.
      change (2 ^ 48) with 281474976710656 in Hq1.
      change (2 ^ 53) with 9007199254740992 in Hq2. lia.
    + split; [lia|]. rewrite Hm. cbn. lia.
  - assert (Hd : Zpos (digits2_pos P) = 106).
    { apply digits2_pos_unique. rewrite HP.
      change (2 ^ (106 - 1)) with (2 ^ 57 * 2 ^ 48).
      change (2 ^ 106) with (2 ^ 58 * 2 ^ 48).
      change (2 ^ 58) with 288230376151711744.
      change (2 ^ 57) with 144115188075855872 in *. clear - Hhi Hl.
      assert (0 < 2 ^ 48) by (apply Z.pow_pos_nonneg; lia). nia. }
    rewrite (binary_round_aux_shift _ _ _ 53).
    2:{ rewrite Hd. clear. fexp_lia. }
    change (-99 + 53) with (-46).
    pose proof (shift_round_bounds (Zpos P) 53 ltac:(lia)) as Hb.
    assert (Hq : Zpos P / 2 ^ 53 = Zpos m * 25 / 32).
    { rewrite HP. change (2 ^ 53) with (32 * 2 ^ 48).
      rewrite Z.div_mul_cancel_r by lia. reflexivity. }
    rewrite Hq in Hb.
    assert (Hq1 : 2 ^ 52 <= Zpos m * 25 / 32).
    { apply Z.div_le_lower_bound; [lia|].
      change (2 ^ 57) with 144115188075855872 in Hl.
      change (2 ^ 52) with 4503599627370496. lia. }
    assert (Hq2 : Zpos m * 25 / 32 < 25 * 2 ^ 48).
    { apply Z.div_lt_upper_bound; [lia|]. change (2 ^ 48) with 281474976710656. lia. }
    destruct (renormalize_carry (shift_round (Zpos P) 53) (-46)) as (m' & e' & E & Hc).
    { change (2 ^ 48) with 281474976710656 in Hq2.
      change (2 ^ 52) with 4503599627370496 in *.
      change (2 ^ 53) with 9007199254740992. lia. }
    { lia. }
    exists m', e'. split; [exact E|].
    destruct Hc as [[-> Hm] | (-> & Hm & Hc)].
    + split; [lia|]. rewrite Hm. change (- -46) with 46.
      change (2 ^ 46) with 70368744177664.
      change (2 ^ 48) with 281474976710656 in Hq2.
      change (2 ^ 52) with 4503599627370496 in Hq1. lia.
    + exfalso. change (2 ^ 48) with 281474976710656 in Hq2.
      change (2 ^ 53) with 9007199254740992 in Hc. lia.
Qed.

(** A number between 50 and 100 has between 5000 and 10000 hundredths. *)
Lemma hundredths_range (m : positive) (e : Z) :
  e < 0 -> 50 * 2 ^ (- e) <= Zpos m <= 100 * 2 ^ (- e) ->
  at_least_1e21 m e = false /\ 5000 <= hundredths m e <= 10000.
Proof.
  intros He [Hlo Hhi]. unfold at_least_1e21, hundredths.
  replace (0 <=? e) with false by (symmetry; apply Z.leb_gt; exact He).
  assert (Hp : 0 < 2 ^ (- e)) by (apply Z.pow_pos_nonneg; lia).
  set (k := 2 ^ (- e)) in *.
  split.
  - apply Z.leb_gt. change (10 ^ 21) with 1000000000000000000000. lia.
  - split.
    + apply Z.div_le_lower_bound; lia.
    + assert ((200 * Zpos m + k) / (2 * k) < 10001); [ | lia].
      apply Z.div_lt_upper_bound; lia.
Qed.

(** From 5000 to 10000 no padding is needed: the digits of the whole part,
    the point, and the two digits of the hundredths; checked on each of the
    5001 numbers. *)
Lemma point_two_form (n : Z) :
  5000 <= n <= 10000 ->
  point_two n
  = decimal (n / 100) ++ str "." ++ [digit (n / 10 mod 10); digit (n mod 10)].
Proof.
  intros Hn.
  assert (Hall : forallb
            (fun k => let n := 5000 + Z.of_nat k in
                      jsstring_eqb (point_two n)
                        (decimal (n / 100) ++ str "." ++
                         [digit (n / 10 mod 10); digit (n mod 10)]))
            (seq 0 (Z.to_nat 5001)) = true) by (vm_compute; reflexivity).
  rewrite forallb_forall in Hall.
  specialize (Hall (Z.to_nat (n - 5000))).
  replace (5000 + Z.of_nat (Z.to_nat (n - 5000))) with n in Hall by lia.
  cbv zeta in Hall.
  assert (Hin : In (Z.to_nat (n - 5000)) (seq 0 (Z.to_nat 5001))) by (apply in_seq; lia).
  specialize (Hall Hin).
  revert Hall. generalize (point_two n).
  generalize (decimal (n / 100) ++ str "." ++ [digit (n / 10 mod 10); digit (n mod 10)]).
  intros a b. revert a. induction b as [ | x b IH]; intros [ | y a]; cbn; try discriminate.
  - reflexivity.
  - intros H. apply andb_true_iff in H. destruct H as [Hx Hr].
    apply N.eqb_eq in Hx. subst. f_equal. apply IH, Hr.
Qed.

(** [(c * 100).toFixed(2)] for [c] in the binade of [0.5]. *)
Lemma percentage_in_binade (js : Builtins) (m : positive) :
  2 ^ 52 <= Zpos m < 2 ^ 53 ->
  exists n : Z,
    5000 <= n <= 10000 /\
    toFixed2 js (mul (S754_finite false m (-53)) hundred)
    = decimal (n / 100) ++ str "." ++ [digit (n / 10 mod 10); digit (n mod 10)].
Proof.
  intros Hm.
  destruct (mul_hundred_binade m Hm) as (m' & e' & -> & He & Hb).
  destruct (hundredths_range m' e' He Hb) as [Hbig Hn].
  exists (hundredths m' e'). split; [exact Hn|].
  cbn [toFixed2 app]. rewrite Hbig. apply point_two_form, Hn.
Qed.

Lemma percentage_of_one (js : Builtins) :
  toFixed2 js (mul one hundred) = str "100.00".
Proof. vm_compute. reflexivity. Qed.

(** X10.  The confidence of a prediction of the handler is displayed, by
    [(confidence * 100).toFixed(2)], as a number between 50.00 and 100.00:
    the conversion to a number leaves it as it is, and the text is the
    digits of a whole number of hundredths between 5000 and 10000, with a
    point before the last two. *)
Theorem confidence_shown_as_percentage (js : Builtins) (r : number) :
  Route.random_range r = true ->
  exists n : Z,
    5000 <= n <= 10000 /\
    ToNumber js (VNumber (add half (mul r half))) = inr (add half (mul r half)) /\
    toFixed2 js (mul (add half (mul r half)) hundred)
    = decimal (n / 100) ++ str "." ++ [digit (n / 10 mod 10); digit (n mod 10)].
Proof.
  intros Hr.
  destruct (confidence_cases r Hr) as [(m & -> & Hm) | [-> _]].
  - destruct (percentage_in_binade js m Hm) as (n & Hn & E).
    exists n. split; [exact Hn|]. split; [reflexivity | exact E].
  - exists 10000. split; [lia|]. split; [reflexivity|].
    rewrite percentage_of_one. reflexivity.
Qed.

Lemma confidence_shown_as_percentage_half :
  exists n : Z,
    5000 <= n <= 10000 /\
    ToNumber plain (VNumber (add half (mul half half)))
    = inr (add half (mul half half)) /\
    toFixed2 plain (mul (add half (mul half half)) hundred)
    = decimal (n / 100) ++ str "." ++ [digit (n / 10 mod 10); digit (n mod 10)].
Proof.
  apply (confidence_shown_as_percentage plain half). reflexivity.
Defined.

End DisplayFacts.

(** ** The rendered page *)

Module ViewFacts.
Import Page Display View.

(** Reading a property of a truthy value does not throw. *)
Lemma truthy_get (v : value) (k : jsstring) :
  truthy v = true -> exists x, get v k = inr x.
Proof.
  destruct v; try discriminate; intros _; eexists; reflexivity.
Qed.

(** The only exception a conversion to a string throws is a [TypeError]. *)
Lemma ToString_TypeError (js : Builtins) :
  forall (v : value) (e : exn), ToString js v = inl e -> e = TypeError.
Proof.
  fix IH 1. intros v e.
  destruct v as [ | | b | n | s | xs | props]; cbn [ToString]; try discriminate.
  - destruct b; discriminate.
  - revert xs e. fix IHxs 1. intros [ | x rest] e; [discriminate|].
    pose proof (IH x) as IHx. pose proof (IHxs rest) as IHrest.
    cbn [join].
    match goal with
    | |- match ?t with inl _ => _ | inr _ => _ end = _ -> _ =>
        destruct t as [e' | s'] eqn:Ex
    end.
    + intros E. injection E as <-.
      destruct x; try discriminate Ex; exact (IHx _ Ex).
    + destruct rest as [ | y rest']; [discriminate|].
      match goal with
      | |- match ?t with inl _ => _ | inr _ => _ end = _ -> _ =>
          destruct t as [e'' | t'] eqn:Ej
      end; [ | discriminate].
      intros E. injection E as <-. exact (IHrest _ eq_refl).
  - destruct (has_own _ _); [ | discriminate].
    intros E. injection E as <-. reflexivity.
Qed.

Lemma ToNumber_TypeError (js : Builtins) (v : value) (e : exn) :
  ToNumber js v = inl e -> e = TypeError.
Proof.
  destruct v as [ | | b | n | s | xs | props]; cbn [ToNumber]; try discriminate.
  - destruct b; discriminate.
  - destruct (ToString js (VArray xs)) as [e' | s] eqn:E; [ | discriminate].
    intros H; injection H as <-. exact (ToString_TypeError js _ _ E).
  - destruct (ToString js (VObject props)) as [e' | s] eqn:E; [ | discriminate].
    intros H; injection H as <-. exact (ToString_TypeError js _ _ E).
Qed.

(** A state that can be rendered gives a tree. *)
Lemma Home_returns (js : Builtins) (h : HomeState) :
  renders js h = true -> exists tree : node, Home js h = inr tree.
Proof.
  unfold renders, confidence_number, Home, and_then.
  destruct (truthy (prediction h)) eqn:Ht; [ | intros _; eexists; reflexivity].
  destruct (truthy_get _ (str "sentiment") Ht) as [s ->].
  destruct (truthy_get _ (str "confidence") Ht) as [c ->].
  destruct (ToNumber js c) as [e | x]; [discriminate|].
  intros _. eexists; reflexivity.
Qed.

(** A state that cannot be rendered throws the [TypeError] of the
    conversion. *)
Lemma Home_throws (js : Builtins) (h : HomeState) :
  renders js h = false ->
  Home js h = inl TypeError /\
  truthy (prediction h) = true /\
  confidence_number js (prediction h) = inl TypeError.
Proof.
  unfold renders, confidence_number, Home, and_then.
  destruct (truthy (prediction h)) eqn:Ht; [ | discriminate].
  destruct (truthy_get _ (str "sentiment") Ht) as [s ->].
  destruct (truthy_get _ (str "confidence") Ht) as [c ->].
  destruct (ToNumber js c) as [e | x] eqn:Ec; [ | discriminate].
  rewrite (ToNumber_TypeError js c e Ec). intros _. repeat split.
Qed.

(** The parts of the tree that depend on the state, read back from it. *)
Lemma Home_parts (js : Builtins) (h : HomeState) (tree : node) :
  Home js h = inr tree ->
  by_class "p-3 bg-red-50 text-red-700 rounded-md text-sm" tree
  = match error h with
    | Some (x :: e) => [banner (x :: e)]
    | _ => []
    end /\
  by_class "font-medium" tree
  = (if truthy (prediction h) then [sentiment_line (positive (prediction h))]
     else []) /\
  by_class "text-sm text-gray-600" tree
  = (if truthy (prediction h) then
       match confidence_number js (prediction h) with
       | inr x => [confidence_line (toFixed2 js (mul x hundred))]
       | inl _ => []
       end
     else []) /\
  List.length (by_type "CheckCircle" tree)
  = (if truthy (prediction h) && positive (prediction h) then 1 else 0)%nat /\
  List.length (by_type "XCircle" tree)
  = (if truthy (prediction h) && negb (positive (prediction h)) then 1 else 0)%nat /\
  List.length (by_type "Textarea" tree) = 1%nat /\
  List.length (by_type "Button" tree) = 1%nat /\
  (loading h = false -> by_type "Button" tree = [idle_button]).
Proof.
  unfold Home, and_then, positive, sentiment, confidence_number.
  destruct (truthy (prediction h)) eqn:Ht.
  - destruct (truthy_get _ (str "sentiment") Ht) as [s ->].
    destruct (truthy_get _ (str "confidence") Ht) as [c ->].
    unfold and_then.
    destruct (ToNumber js c) as [e | x]; [discriminate|].
    intros E; injection E as <-.
    generalize (toFixed2 js (mul x hundred)); intros conf.
    generalize (text h); intros t.
    destruct (error h) as [[ | y e] | ];
      destruct (strict_equals s (str "positive")); destruct (loading h);
      vm_compute; repeat split; discriminate.
  - intros E; injection E as <-.
    generalize (text h); intros t.
    destruct (error h) as [[ | y e] | ];
      destruct (loading h); destruct (prediction h);
      vm_compute; repeat split; discriminate.
Qed.

(** X11.  Rendering throws only in the conversion of the confidence: a
    state whose prediction is falsy, or truthy with a confidence that
    converts to a number, is rendered into a tree with exactly one Textarea
    and one Button; a truthy prediction whose confidence does not convert
    makes the render throw a [TypeError]. *)
Theorem render_throws_only_on_conversion (js : Builtins) (h : HomeState) :
  (renders js h = true ->
   exists tree : node,
     Home js h = inr tree /\
     List.length (by_type "Textarea" tree) = 1%nat /\
     List.length (by_type "Button" tree) = 1%nat) /\
  (renders js h = false ->
   Home js h = inl TypeError /\
   truthy (prediction h) = true /\
   confidence_number js (prediction h) = inl TypeError).
Proof.
  split.
  - intros Hr. destruct (Home_returns js h Hr) as [tree E].
    destruct (Home_parts js h tree E) as (_ & _ & _ & _ & _ & Ht & Hb & _).
    exists tree. repeat split; assumption.
  - exact (Home_throws js h).
Qed.

(** A stored body [{ "confidence": { "toString": 0 } }] cannot be shown. *)
Lemma render_throws_only_on_conversion_unconvertible :
  Home plain {| text := good; prediction := unconvertible;
                loading := false; error := None |}
  = inl TypeError /\
  truthy unconvertible = true /\
  confidence_number plain unconvertible = inl TypeError.
Proof.
  apply (proj2 (render_throws_only_on_conversion plain
                  {| text := good; prediction := unconvertible;
                     loading := false; error := None |})).
  reflexivity.
Defined.

(** X12.  In every state that can be rendered, the card appears exactly
    when the prediction is truthy, and then it says Positif, with the check
    icon, exactly when [prediction.sentiment] is the string [positive]; any
    other value, a missing one included, is shown as the negative sentiment,
    with the cross icon. *)
Theorem sentiment_shown (js : Builtins) (h : HomeState) :
  renders js h = true ->
  exists tree : node,
    Home js h = inr tree /\
    by_class "font-medium" tree
    = (if truthy (prediction h) then [sentiment_line (positive (prediction h))]
       else []) /\
    List.length (by_type "CheckCircle" tree)
    = (if truthy (prediction h) && positive (prediction h) then 1 else 0)%nat /\
    List.length (by_type "XCircle" tree)
    = (if truthy (prediction h) && negb (positive (prediction h)) then 1 else 0)%nat.
Proof.
  intros Hr. destruct (Home_returns js h Hr) as [tree E].
  destruct (Home_parts js h tree E) as (_ & Hs & _ & Hc & Hx & _).
  exists tree. repeat split; assumption.
Qed.

Lemma sentiment_shown_without_sentiment :
  exists tree : node,
    Home plain {| text := good; prediction := VObject [(str "confidence", VNumber half)];
                  loading := false; error := None |}
    = inr tree /\
    by_class "font-medium" tree = [sentiment_line false] /\
    List.length (by_type "CheckCircle" tree) = 0%nat /\
    List.length (by_type "XCircle" tree) = 1%nat.
Proof.
  apply (sentiment_shown plain
           {| text := good; prediction := VObject [(str "confidence", VNumber half)];
              loading := false; error := None |}).
  reflexivity.
Defined.

(** X13.  A truthy prediction without a [confidence] member is shown with
    the confidence NaN. *)
Theorem missing_confidence_shown_as_NaN (js : Builtins) (h : HomeState) :
  truthy (prediction h) = true ->
  get (prediction h) (str "confidence") = inr VUndefined ->
  exists tree : node,
    Home js h = inr tree /\
    by_class "text-sm text-gray-600" tree = [confidence_line (str "NaN")].
Proof.
  intros Ht Hc.
  assert (Hn : confidence_number js (prediction h) = inr S754_nan).
  { unfold confidence_number, and_then. rewrite Hc. reflexivity. }
  assert (Hr : renders js h = true) by (unfold renders; rewrite Ht, Hn; reflexivity).
  destruct (Home_returns js h Hr) as [tree E].
  destruct (Home_parts js h tree E) as (_ & _ & Hl & _).
  exists tree. split; [exact E|].
  rewrite Hl, Ht, Hn. reflexivity.
Qed.

Lemma missing_confidence_shown_as_NaN_empty_object :
  exists tree : node,
    Home plain {| text := good; prediction := VObject []; loading := false; error := None |}
    = inr tree /\
    by_class "text-sm text-gray-600" tree = [confidence_line (str "NaN")].
Proof.
  apply (missing_confidence_shown_as_NaN plain
           {| text := good; prediction := VObject []; loading := false; error := None |});
    reflexivity.
Defined.

End ViewFacts.

(** ** A click, as seen on the page *)

Module Screen.
Import Page PageFacts Typing Display View ViewFacts.

Lemma strict_equals_label (p : bool) :
  strict_equals (VString (Route.label p)) (str "positive") = p.
Proof. destruct p; reflexivity. Qed.

(** The state after a click: the error cell names the failure, and a
    failure leaves the prediction as it was. *)
Lemma click_state (b : browser) :
  exists b' : browser,
    classifyText b = (inr tt, b') /\
    error (home b') = option_map message_of (failure_of b) /\
    (forall f, failure_of b = Some f -> prediction (home b') = prediction (home b)).
Proof.
  unfold failure_of.
  destruct (forallb is_white_space (text (home b))) eqn:Hb.
  - exists (with_error (Some msg_enter_text) b).
    split; [exact (classifyText_blank b Hb)|]. split; reflexivity.
  - eexists. split; [exact (Clicks.classifyText_request b Hb)|].
    destruct (network b _ _) as [e | [[ | ] [e | data]]]; cbn [ok json];
      split; try reflexivity; intros f Hf; try reflexivity; discriminate Hf.
Qed.

(** Whether a state can be rendered depends on its prediction only. *)
Lemma renders_prediction (js : Builtins) (h h' : HomeState) :
  prediction h' = prediction h -> renders js h' = renders js h.
Proof. unfold renders. intros ->. reflexivity. Qed.

Lemma banners_differ :
  banner (message_of ValidationError) <> banner (message_of ServiceUnavailable).
Proof. intros H. vm_compute in H. discriminate H. Qed.

(** C7.  On a page that is on screen, every failure of a click is shown to
    the user: the page rendered from the new state holds the red box with
    the message of the failure that occurred, the blank-text message for a
    validation error and the classification-failed message for a rejected
    request, a response that is not OK or an unreadable response body.  The
    two boxes differ, and after a click that did not fail no box is
    rendered. *)
Theorem failures_rendered_distinctly (js : Builtins) (b : browser) :
  renders js (home b) = true ->
  exists b' : browser,
    classifyText b = (inr tt, b') /\
    match failure_of b with
    | Some f =>
        exists tree : node,
          Home js (home b') = inr tree /\
          by_class "p-3 bg-red-50 text-red-700 rounded-md text-sm" tree
          = [banner (message_of f)]
    | None =>
        match Home js (home b') with
        | inr tree =>
            by_class "p-3 bg-red-50 text-red-700 rounded-md text-sm" tree = []
        | inl e => e = TypeError
        end
    end /\
    banner (message_of ValidationError) <> banner (message_of ServiceUnavailable).
Proof.
  intros Hr.
  destruct (click_state b) as (b' & E & Herr & Hkeep).
  exists b'. split; [exact E|]. split; [ | exact banners_differ].
  destruct (failure_of b) as [f | ] eqn:Hf.
  - assert (Hr' : renders js (home b') = true).
    { rewrite (renders_prediction js (home b) (home b') (Hkeep f eq_refl)). exact Hr. }
    destruct (Home_returns js (home b') Hr') as [tree Et].
    destruct (Home_parts js (home b') tree Et) as (Hbanner & _).
    exists tree. split; [exact Et|].
    rewrite Hbanner, Herr. destruct f; reflexivity.
  - destruct (renders js (home b')) eqn:Hr'.
    + destruct (Home_returns js (home b') Hr') as [tree Et]. rewrite Et.
      destruct (Home_parts js (home b') tree Et) as (Hbanner & _).
      rewrite Hbanner, Herr. reflexivity.
    + destruct (Home_throws js (home b') Hr') as (Et & _). rewrite Et. reflexivity.
Qed.

(** A blank text on a fresh page: the validation box. *)
Lemma failures_rendered_distinctly_blank :
  exists b' : browser,
    classifyText (page_with (str " ") (fun _ _ => inl TypeError)) = (inr tt, b') /\
    (exists tree : node,
       Home plain (home b') = inr tree /\
       by_class "p-3 bg-red-50 text-red-700 rounded-md text-sm" tree
       = [banner (message_of ValidationError)]) /\
    banner (message_of ValidationError) <> banner (message_of ServiceUnavailable).
Proof.
  apply (failures_rendered_distinctly plain
           (page_with (str " ") (fun _ _ => inl TypeError))).
  reflexivity.
Defined.

(** X14.  After any click, the new state is rendered unless the stored
    prediction has a confidence that does not convert to a number, and the
    rendered page shows the red box exactly when the click failed, holding
    the message of that failure; when the new state cannot be rendered the
    render throws a [TypeError]. *)
Theorem failure_banner_shown (js : Builtins) (b : browser) :
  exists b' : browser,
    classifyText b = (inr tt, b') /\
    (renders js (home b') = true ->
     exists tree : node,
       Home js (home b') = inr tree /\
       by_class "p-3 bg-red-50 text-red-700 rounded-md text-sm" tree
       = match failure_of b with
         | Some f => [banner (message_of f)]
         | None => []
         end) /\
    (renders js (home b') = false -> Home js (home b') = inl TypeError).
Proof.
  destruct (click_state b) as (b' & E & Herr & _).
  exists b'. split; [exact E|]. split.
  - intros Hr. destruct (Home_returns js (home b') Hr) as [tree Et].
    destruct (Home_parts js (home b') tree Et) as (Hbanner & _).
    exists tree. split; [exact Et|].
    rewrite Hbanner, Herr.
    destruct (failure_of b) as [[ | ] | ]; reflexivity.
  - intros Hr. exact (proj1 (Home_throws js (home b') Hr)).
Qed.

(** X15.  The page and the handler together, as seen by the user: after a
    click with a text that is not blank, the page shows no error box, a
    card that says Positif when the handler's first draw was above 0.5 and
    the negative sentiment otherwise, a confidence between 50.00 and 100.00
    followed by a percent sign, and the button ready for the next click. *)
Theorem classified_page_view
    (js : Builtins) (b : browser) (w : Route.world) :
  Route.random_source_ok w ->
  network b = served_by w ->
  forallb is_white_space (text (home b)) = false ->
  exists (b' : browser) (tree : node) (n : Z),
    classifyText b = (inr tt, b') /\
    Home js (home b') = inr tree /\
    by_class "p-3 bg-red-50 text-red-700 rounded-md text-sm" tree = [] /\
    by_class "font-medium" tree
    = [sentiment_line (gt (Route.random w (Route.drawn w)) half)] /\
    5000 <= n <= 10000 /\
    by_class "text-sm text-gray-600" tree
    = [confidence_line
         (decimal (n / 100) ++ str "." ++ [digit (n / 10 mod 10); digit (n mod 10)])] /\
    by_type "Button" tree = [idle_button].
Proof.
  intros Hw Hn Hb.
  set (r1 := Route.random w (Route.drawn w)).
  set (r2 := Route.random w (S (Route.drawn w))).
  assert (E : classifyText b
              = (inr tt, stored (Route.body (Route.prediction r1 r2)) b)).
  { rewrite (Clicks.classifyText_request b Hb), Hn. unfold served_by.
    assert (Hs : text (home b) <> []) by (intros H; rewrite H in Hb; discriminate Hb).
    rewrite (RouteFacts.POST_classifies
               {| Route.json := inr (body (classify_init (text (home b)))) |}
               (VString (text (home b))) w eq_refl
               (RouteFacts.valid_text_string _ Hs)).
    reflexivity. }
  set (b' := stored (Route.body (Route.prediction r1 r2)) b) in *.
  assert (Hnum : confidence_number js (prediction (home b'))
                 = inr (add half (mul r2 half))) by reflexivity.
  assert (Hr : renders js (home b') = true)
    by (unfold renders; rewrite Hnum; reflexivity).
  destruct (Home_returns js (home b') Hr) as [tree Et].
  destruct (Home_parts js (home b') tree Et)
    as (Hbanner & Hsent & Hconf & _ & _ & _ & _ & Hbutton).
  assert (Hpos : positive (prediction (home b')) = gt r1 half)
    by (exact (strict_equals_label (gt r1 half))).
  assert (Hshown : exists n : Z, 5000 <= n <= 10000 /\
            toFixed2 js (mul (add half (mul r2 half)) hundred)
            = decimal (n / 100) ++ str "." ++ [digit (n / 10 mod 10); digit (n mod 10)]).
  { destruct (Binary64.confidence_cases r2 (Hw _)) as [(m & -> & Hm) | [-> _]].
    - exact (DisplayFacts.percentage_in_binade js m Hm).
    - exists 10000. split; [lia|]. rewrite DisplayFacts.percentage_of_one. reflexivity. }
  destruct Hshown as (n & Hrange & Htext).
  exists b', tree, n.
  split; [exact E|]. split; [exact Et|].
  split; [exact Hbanner|].
  split; [rewrite Hsent, Hpos; reflexivity|].
  split; [exact Hrange|].
  split; [ | exact (Hbutton eq_refl)].
  rewrite Hconf, Hnum.
  cbn [b' stored home prediction truthy Route.body Route.prediction].
  rewrite Htext. reflexivity.
Qed.

Lemma classified_page_view_good :
  exists (b' : browser) (tree : node) (n : Z),
    classifyText (page_with good (served_by (world_with [three_quarters; half; half; half])))
    = (inr tt, b') /\
    Home plain (home b') = inr tree /\
    by_class "p-3 bg-red-50 text-red-700 rounded-md text-sm" tree = [] /\
    by_class "font-medium" tree = [sentiment_line (gt three_quarters half)] /\
    5000 <= n <= 10000 /\
    by_class "text-sm text-gray-600" tree
    = [confidence_line
         (decimal (n / 100) ++ str "." ++ [digit (n / 10 mod 10); digit (n mod 10)])] /\
    by_type "Button" tree = [idle_button].
Proof.
  apply (classified_page_view plain
           (page_with good (served_by (world_with [three_quarters; half; half; half])))
           (world_with [three_quarters; half; half; half])).
  - apply RouteFacts.world_with_ok; reflexivity.
  - reflexivity.
  - reflexivity.
Defined.

End Screen.
